(** * Poland air-quality ETL: the Collector and the Aggregator

    A shallow embedding of

    - [src/etl/01_Data_Scraping/data_scraper.py] (module [Scraper]): the
      retrying HTTP fetch, the per-city merge of daily weather with the
      daily-resampled hourly air quality, and the loop over the cities;
    - [src/etl/Data_Transformation/etl_pipeline.py] (module [Pipeline]): the
      year filter, the derived calendar columns and the summary tables.

    Python values that come out of [response.json()] are modelled by [Json];
    [float64] cells are Rocq's primitive binary64 floats, so comparisons
    with [NaN] behave as they do in Python. *)

From Stdlib Require Import ZArith List String Ascii Bool Lia Floats Uint63.
From Stdlib Require Import Permutation Sorted.
Import ListNotations.

Set Warnings "-inexact-float,-register-all,-notation-for-abbreviation".

Local Open Scope string_scope.
Local Open Scope list_scope.
Local Open Scope Z_scope.

(** ** Python values parsed from JSON *)

Inductive Json : Type :=
| JNull                                   (* None *)
| JBool (b : bool)
| JNum (x : float)                        (* int or float *)
| JStr (s : string)
| JArr (xs : list Json)                   (* list *)
| JObj (items : list (string * Json)).    (* dict, in insertion order *)

(** [bool(v)]: what [if not v] tests. *)
Definition truthy (v : Json) : bool :=
  match v with
  | JNull => false
  | JBool b => b
  | JNum x => negb (PrimFloat.eqb x 0%float)
  | JStr s => negb (String.eqb s "")
  | JArr xs => match xs with [] => false | _ => true end
  | JObj items => match items with [] => false | _ => true end
  end.

Inductive Exn : Type :=
| RequestException        (* raised by requests.get *)
| JSONDecodeError         (* raised by response.json() *)
| KeyError (k : string)
| TypeError
| ValueError
| OutOfBoundsDatetime
| FileNotFoundError
| IntCastingNaNError.      (* astype(int) on NaN or an infinity *)

Definition dict_get (k : string) (items : list (string * Json)) : option Json :=
  option_map snd (find (fun p => String.eqb (fst p) k) items).

(** [v[k]] for a string key [k]. *)
Definition getitem (v : Json) (k : string) : Exn + Json :=
  match v with
  | JObj items =>
      match dict_get k items with
      | Some x => inr x
      | None => inl (KeyError k)
      end
  | _ => inl TypeError
  end.

(** [k in v] for a string [k]: key of a dict, element of a list, substring
    of a string; [TypeError] on None, bool and numbers. *)
Definition contains (k : string) (v : Json) : Exn + bool :=
  match v with
  | JObj items => inr (existsb (fun p => String.eqb (fst p) k) items)
  | JArr xs =>
      inr (existsb (fun x => match x with JStr s => String.eqb s k | _ => false end) xs)
  | JStr s =>
      inr (match String.index 0 k s with Some _ => true | None => false end)
  | _ => inl TypeError
  end.

(** ** The calendar of pandas timestamps

    A [Timestamp] is a number of nanoseconds since 1970-01-01 in an [int64];
    its calendar day is the floor of the division by a day's length. *)

Definition ns_per_day : Z := 86400000000000.
Definition int64_min : Z := - 2 ^ 63.
Definition int64_max : Z := 2 ^ 63 - 1.

Definition day_of (ns : Z) : Z := ns / ns_per_day.

(** Days since 1970-01-01 to (year, month, day) in the proleptic Gregorian
    calendar. *)
Definition civil_from_days (z : Z) : Z * Z * Z :=
  let z := z + 719468 in
  let era := z / 146097 in
  let doe := z - era * 146097 in
  let yoe := (doe - doe / 1460 + doe / 36524 - doe / 146096) / 365 in
  let y := yoe + era * 400 in
  let doy := doe - (365 * yoe + yoe / 4 - yoe / 100) in
  let mp := (5 * doy + 2) / 153 in
  let d := doy - (153 * mp + 2) / 5 + 1 in
  let m := if mp <? 10 then mp + 3 else mp - 9 in
  (if m <=? 2 then y + 1 else y, m, d).

Definition days_from_civil (y m d : Z) : Z :=
  let y := if m <=? 2 then y - 1 else y in
  let era := y / 400 in
  let yoe := y - era * 400 in
  let doy := (153 * (if m >? 2 then m - 3 else m + 9) + 2) / 5 + d - 1 in
  let doe := yoe * 365 + yoe / 4 - yoe / 100 + doy in
  era * 146097 + doe - 719468.

Definition digit (n : Z) : ascii := ascii_of_nat (48 + Z.to_nat (n mod 10)).

Definition digits2 (n : Z) : string :=
  String (digit (n / 10)) (String (digit n) "").

Definition digits4 (n : Z) : string :=
  String (digit (n / 1000)) (String (digit (n / 100)) (digits2 n)).

(** [strftime('%Y-%m-%d')] of the day numbered [z]. *)
Definition strftime_Ymd (z : Z) : string :=
  let '(y, m, d) := civil_from_days z in
  (digits4 y ++ "-" ++ digits2 m ++ "-" ++ digits2 d)%string.

(** ** The world the Collector runs in *)

Inductive Api : Type := ArchiveApi | AirQualityApi.

Record Url : Type := mkUrl {
  api : Api;
  latitude : float;
  longitude : float;
  start_date : string;
  end_date : string
}.

Record Response : Type := mkResponse {
  status_code : Z;
  body : option Json      (* what [response.json()] returns; None: it raises *)
}.

Inductive Message : Type :=
| RateLimitHit (wait_time : Z)
| ServerError (attempt retries : nat)
| HttpError (status : Z)
| NetworkError (attempt retries : nat) (e : Exn)
| FetchingData (city : string)
| WeatherApiError
| AirQualityApiError
| MissingHourlyData
| Success (records : nat)
| DataProcessingError (e : Exn)
| StartingExtraction
| MayTakeMinutes
| Progress (i n : nat)
| ProcessCompleted (total_rows : nat) (filename : string)
| FailedToFetchData.

(** One row of a city's merged frame. *)
Record MergedRow : Type := mkMergedRow {
  time : string;
  weather_values : list (string * Json);
  air_values : list (string * float);
  city : string
}.

Inductive Event : Type :=
| Get (url : Url)
| Sleep (seconds : Z)
| Print (m : Message)
| ToCsv (filename : string) (rows : list MergedRow).

(** [net n url] is what the [n]-th call of [requests.get] meets ([None]: the
    call raises); [trace] is newest first. *)
Record World : Type := mkWorld {
  net : nat -> Url -> option Response;
  sent : nat;
  trace : list Event;
  files : list (string * list MergedRow)
}.

(** ** A state and exception monad *)

Inductive Result (A : Type) : Type :=
| Ok (a : A)
| Raise (e : Exn).
Arguments Ok {A} a.
Arguments Raise {A} e.

Definition M (S A : Type) : Type := S -> Result A * S.

Definition ret {S A} (a : A) : M S A := fun s => (Ok a, s).

Definition bind {S A B} (c : M S A) (k : A -> M S B) : M S B :=
  fun s =>
    match c s with
    | (Ok a, s') => k a s'
    | (Raise e, s') => (Raise e, s')
    end.

Definition raise {S A} (e : Exn) : M S A := fun s => (Raise e, s).

Definition try_except {S A} (c : M S A) (handler : Exn -> M S A) : M S A :=
  fun s =>
    match c s with
    | (Ok a, s') => (Ok a, s')
    | (Raise e, s') => handler e s'
    end.

Definition lift {S A} (r : Exn + A) : M S A :=
  match r with
  | inl e => raise e
  | inr a => ret a
  end.

(** The Collector's computations. *)
Definition IO : Type -> Type := M World.

Declare Scope py_scope.
Delimit Scope py_scope with py.
Notation "x <- c ;; k" := (bind c (fun x => k))
  (at level 61, c at next level, right associativity) : py_scope.
Notation "c ;; k" := (bind c (fun _ => k))
  (at level 61, right associativity) : py_scope.
Local Open Scope py_scope.

Definition log (e : Event) (w : World) : World :=
  mkWorld (net w) (sent w) (e :: trace w) (files w).

Definition emit (e : Event) : IO unit := fun w => (Ok tt, log e w).

Definition print (m : Message) : IO unit := emit (Print m).
Definition time_sleep (seconds : Z) : IO unit := emit (Sleep seconds).

Definition requests_get (url : Url) : IO Response :=
  fun w =>
    let w' := mkWorld (net w) (S (sent w)) (Get url :: trace w) (files w) in
    match net w (sent w) url with
    | Some r => (Ok r, w')
    | None => (Raise RequestException, w')
    end.

Definition response_json (r : Response) : IO Json :=
  match body r with
  | Some j => ret j
  | None => raise JSONDecodeError
  end.

Definition to_csv (filename : string) (rows : list MergedRow) : IO unit :=
  fun w =>
    (Ok tt, mkWorld (net w) (sent w) (ToCsv filename rows :: trace w)
                    ((filename, rows) :: files w)).

(** The waits and the [to_csv] calls recorded in a trace. *)
Definition sleeps (t : list Event) : list Z :=
  flat_map (fun e => match e with Sleep s => [s] | _ => [] end) t.

Definition written (t : list Event) : list (string * list MergedRow) :=
  flat_map (fun e => match e with ToCsv f rows => [(f, rows)] | _ => [] end) t.

Module Scraper.

(** *** [safe_request] *)

(** One pass of the loop body: [Some j] when the body executes [return]. *)
Definition attempt_once (url : Url) (retries : nat) (wait_time : Z)
    (attempt : nat) : IO (option Json) :=
  try_except
    (response <- requests_get url ;;
     if status_code response =? 200 then
       j <- response_json response ;;
       ret (Some j)
     else if status_code response =? 429 then
       print (RateLimitHit wait_time) ;;
       time_sleep wait_time ;;
       ret None
     else if status_code response >=? 500 then
       print (ServerError (attempt + 1) retries) ;;
       time_sleep wait_time ;;
       ret None
     else
       print (HttpError (status_code response)) ;;
       time_sleep 2 ;;
       ret None)
    (fun e =>
       print (NetworkError (attempt + 1) retries e) ;;
       time_sleep wait_time ;;
       ret None).

Fixpoint safe_request_loop (url : Url) (retries : nat) (wait_time : Z)
    (attempts : list nat) : IO Json :=
  match attempts with
  | [] => ret JNull
  | attempt :: rest =>
      r <- attempt_once url retries wait_time attempt ;;
      match r with
      | Some j => ret j
      | None => safe_request_loop url retries wait_time rest
      end
  end.

Definition safe_request (url : Url) (retries : nat) (wait_time : Z) : IO Json :=
  safe_request_loop url retries wait_time (seq 0 retries).

(** *** The pandas operations [get_historical_data] calls *)

(** A frame, column by column; the columns are equally long. *)
Definition DataFrame : Type := list (string * list Json).

(** The operations whose result depends on pandas' parsing of timestamps,
    on its floating-point summation and on its reading of values that are
    not a dict of arrays and scalars are taken as an interface. *)
Class Pandas : Type := {
  (** [pd.to_datetime] on one cell: [Some (Some ns)] for a timestamp of
      [ns] nanoseconds since the epoch, [Some None] for [NaT], [None] when
      it raises. *)
  to_datetime : Json -> option (option Z);
  (** [mean()] of the values of one column that fall in one bucket. *)
  mean : list float -> float;
  (** [pd.DataFrame(v)] for a [v] of another shape than the one both APIs
      document: a dict that holds a dict, a list, None, a scalar. *)
  DataFrame_of_other : Json -> Exn + DataFrame
}.

(** The lengths of the values that are arrays. *)
Definition array_lengths (items : list (string * Json)) : list nat :=
  flat_map (fun p => match snd p with
                     | JArr xs => [List.length xs]
                     | _ => []
                     end) items.

Definition has_object (items : list (string * Json)) : bool :=
  existsb (fun p => match snd p with JObj _ => true | _ => false end) items.

(** A column of [n] rows: an array as it is, a scalar repeated. *)
Definition broadcast (n : nat) (p : string * Json) : string * list Json :=
  (fst p, match snd p with
          | JArr xs => xs
          | v => repeat v n
          end).

(** [pd.DataFrame(v)]. For a dict [v] of arrays and scalars, the shape both
    APIs document: the arrays must be equally long, a scalar (None, a
    bool, a number, a string) is repeated to their length, and scalars with
    no array raise; a dict without entries is the frame without columns.
    A dict that holds a dict, which pandas reads as a labelled series, and a
    [v] that is not a dict are left to [DataFrame_of_other]. *)
Definition pd_DataFrame {pandas : Pandas} (v : Json) : Exn + DataFrame :=
  match v with
  | JObj items =>
      if has_object items then DataFrame_of_other v
      else
        match array_lengths items with
        | [] =>
            match items with
            | [] => inr []
            | _ :: _ => inl ValueError
            end
        | n :: ns =>
            if forallb (Nat.eqb n) ns then inr (map (broadcast n) items)
            else inl ValueError
        end
  | _ => DataFrame_of_other v
  end.

Definition nrows (df : DataFrame) : nat :=
  match df with
  | [] => 0%nat
  | (_, xs) :: _ => List.length xs
  end.

(** [df[k]] *)
Definition column (k : string) (df : DataFrame) : Exn + list Json :=
  match find (fun c => String.eqb (fst c) k) df with
  | Some c => inr (snd c)
  | None => inl (KeyError k)
  end.

Definition other_columns (k : string) (df : DataFrame) : DataFrame :=
  filter (fun c => negb (String.eqb (fst c) k)) df.

Definition row_at (df : DataFrame) (i : nat) : list (string * Json) :=
  map (fun c => (fst c, nth i (snd c) JNull)) df.

(** The rows of a frame, each with its cell of column [k] in front. *)
Definition keyed_rows (k : string) (df : DataFrame)
  : Exn + list (Json * list (string * Json)) :=
  match column k df with
  | inl e => inl e
  | inr keys =>
      inr (map (fun i => (nth i keys JNull, row_at (other_columns k df) i))
               (seq 0 (nrows df)))
  end.

Fixpoint traverse {A B} (f : A -> Exn + B) (xs : list A) : Exn + list B :=
  match xs with
  | [] => inr []
  | x :: rest =>
      match f x with
      | inl e => inl e
      | inr y =>
          match traverse f rest with
          | inl e => inl e
          | inr ys => inr (y :: ys)
          end
      end
  end.

(** A cell of a numeric column: a number, or null read as NaN; any other
    cell leaves the column non-numeric and [mean()] raises on it. *)
Definition to_float64 (v : Json) : Exn + float :=
  match v with
  | JNum x => inr x
  | JNull => inr nan
  | _ => inl TypeError
  end.

Fixpoint days_from (lo : Z) (n : nat) : list Z :=
  match n with
  | O => []
  | S n => lo :: days_from (lo + 1) n
  end.

Definition day_range (lo hi : Z) : list Z :=
  days_from lo (Z.to_nat (hi - lo + 1)).

(** The cells of a [time] column that are timestamps, [NaT] left out. *)
Definition timestamps (cells : list (option Z)) : list Z :=
  flat_map (fun c => match c with Some ns => [ns] | None => [] end) cells.

(** The calendar days [resample('D')] makes buckets for: every day from
    the earliest to the latest timestamp, with or without observations. *)
Definition resample_days (stamps : list Z) : list Z :=
  match map day_of stamps with
  | [] => []
  | d :: ds => day_range (fold_right Z.min d ds) (fold_right Z.max d ds)
  end.

(** [pd.merge(left, right, on='time')]: the default inner join, in the
    order of the left rows. *)
Definition pd_merge {L R : Type} (left : list (Json * L))
    (right : list (string * R)) : list (string * L * R) :=
  flat_map
    (fun l =>
       match fst l with
       | JStr s =>
           map (fun r => (s, snd l, snd r))
               (filter (fun r => String.eqb (fst r) s) right)
       | _ => []
       end)
    left.

Section GetHistoricalData.

Context {pandas : Pandas}.
Variable END_DATE : string.

Definition START_DATE : string := "2016-01-01".
Definition OUTPUT_FILENAME : string := "dane_polska_2004_2026.csv".

(** [pd.to_datetime] on a cell of the [time] column: a null cell is [NaT]
    ([None]); a timestamp must fit an [int64]. *)
Definition to_timestamp (v : Json) : Exn + option Z :=
  match v with
  | JNull => inr None
  | _ =>
      match to_datetime v with
      | Some (Some ns) =>
          if (int64_min <=? ns) && (ns <=? int64_max) then inr (Some ns)
          else inl OutOfBoundsDatetime
      | Some None => inr None
      | None => inl ValueError
      end
  end.

(** Whether the hourly row stamped [c] falls on [day]; a row whose time is
    [NaT] falls on no day: resampling drops it. *)
Definition on_day (day : Z) (c : option Z) : bool :=
  match c with
  | Some ns => day_of ns =? day
  | None => false
  end.

(** [df.set_index('time').resample('D').mean().reset_index()] followed by
    [strftime('%Y-%m-%d')] on the new [time] column. *)
Definition resample_daily (stamps : list (option Z))
    (values : list (string * list float))
  : list (string * list (string * float)) :=
  map (fun day =>
         (strftime_Ymd day,
          map (fun c =>
                 (fst c,
                  mean (map snd
                          (filter (fun p => on_day day (fst p))
                                  (combine stamps (snd c))))))
              values))
      (resample_days (timestamps stamps)).

(** Lines 108-113. A [time] column that has rows and no timestamp among
    them leaves [resample] without a first day, and it raises. *)
Definition air_daily (hourly : Json)
  : Exn + list (string * list (string * float)) :=
  match pd_DataFrame hourly with
  | inl e => inl e
  | inr df_air_hourly =>
      match column "time" df_air_hourly with
      | inl e => inl e
      | inr cells =>
          match traverse to_timestamp cells with
          | inl e => inl e
          | inr stamps =>
              match
                traverse
                  (fun c =>
                     match traverse to_float64 (snd c) with
                     | inl e => inl e
                     | inr xs => inr (fst c, xs)
                     end)
                  (other_columns "time" df_air_hourly)
              with
              | inl e => inl e
              | inr values =>
                  match stamps, timestamps stamps with
                  | _ :: _, [] => inl ValueError
                  | _, _ => inr (resample_daily stamps values)
                  end
              end
          end
      end
  end.

Definition weather_url (lat lon : float) : Url :=
  mkUrl ArchiveApi lat lon START_DATE END_DATE.

Definition air_url (lat lon : float) : Url :=
  mkUrl AirQualityApi lat lon START_DATE END_DATE.

(** The row of [final_df] for a row of the join: line 117 adds the city. *)
Definition merged_row (city_name : string)
    (r : string * list (string * Json) * list (string * float)) : MergedRow :=
  mkMergedRow (fst (fst r)) (snd (fst r)) (snd r) city_name.

(** The [try] block of [get_historical_data], lines 99-124. *)
Definition process (city_name : string) (w_data a_data : Json)
  : IO (list MergedRow) :=
  try_except
    (daily <- lift (getitem w_data "daily") ;;
     df_weather <- lift (pd_DataFrame daily) ;;
     has_hourly <- lift (contains "hourly" a_data) ;;
     if negb has_hourly then
       print MissingHourlyData ;;
       ret []
     else
       hourly <- lift (getitem a_data "hourly") ;;
       df_air_daily <- lift (air_daily hourly) ;;
       weather_rows <- lift (keyed_rows "time" df_weather) ;;
       let final_df :=
         map (merged_row city_name) (pd_merge weather_rows df_air_daily) in
       print (Success (List.length final_df)) ;;
       ret final_df)
    (fun e =>
       print (DataProcessingError e) ;;
       ret []).

(** The daily weather series the [try] block builds from [w_data] (line
    101, keyed by its [time] column as the merge reads it), and the
    daily-resampled air-quality series it builds from [a_data] (lines
    104-113). *)
Definition weather_series (w_data : Json)
  : Exn + list (Json * list (string * Json)) :=
  match getitem w_data "daily" with
  | inl e => inl e
  | inr daily =>
      match pd_DataFrame daily with
      | inl e => inl e
      | inr df_weather => keyed_rows "time" df_weather
      end
  end.

Definition air_series (a_data : Json)
  : Exn + list (string * list (string * float)) :=
  match contains "hourly" a_data with
  | inl e => inl e
  | inr false => inl (KeyError "hourly")
  | inr true =>
      match getitem a_data "hourly" with
      | inl e => inl e
      | inr hourly => air_daily hourly
      end
  end.

Definition get_historical_data (city_name : string) (lat lon : float)
  : IO (list MergedRow) :=
  print (FetchingData city_name) ;;
  w_data <- safe_request (weather_url lat lon) 5 10 ;;
  if negb (truthy w_data) then
    print WeatherApiError ;;
    ret []
  else
    time_sleep 1 ;;
    a_data <- safe_request (air_url lat lon) 5 10 ;;
    if negb (truthy a_data) then
      print AirQualityApiError ;;
      ret []
    else
      process city_name w_data a_data.

(** *** [run_scraper] *)

Record City : Type := mkCity {
  name : string;
  lat : float;
  lon : float
}.

Definition CITIES : list City :=
  [ mkCity "Warszawa" 52.23 21.01;
    mkCity "Kraków" 50.06 19.94;
    mkCity "Łódź" 51.75 19.46;
    mkCity "Wrocław" 51.11 17.03;
    mkCity "Poznań" 52.41 16.92;
    mkCity "Gdańsk" 54.35 18.65;
    mkCity "Szczecin" 53.43 14.55;
    mkCity "Bydgoszcz" 53.12 18.00;
    mkCity "Lublin" 51.25 22.57;
    mkCity "Białystok" 53.13 23.16;
    mkCity "Katowice" 50.26 19.02;
    mkCity "Gdynia" 54.52 18.53;
    mkCity "Częstochowa" 50.81 19.12;
    mkCity "Radom" 51.40 21.15;
    mkCity "Toruń" 53.01 18.60;
    mkCity "Sosnowiec" 50.28 19.10;
    mkCity "Kielce" 50.87 20.63;
    mkCity "Rzeszów" 50.04 21.99;
    mkCity "Gliwice" 50.29 18.67;
    mkCity "Zabrze" 50.32 18.79 ]%float.

(** [df.empty] *)
Definition empty (df : list MergedRow) : bool :=
  match df with
  | [] => true
  | _ => false
  end.

(** The [for] loop of [run_scraper] from its [i]-th pass on; [total] is
    [len(CITIES)]. *)
Fixpoint scrape_cities (cities : list City) (i total : nat)
    (all_data : list (list MergedRow)) : IO (list (list MergedRow)) :=
  match cities with
  | [] => ret all_data
  | c :: rest =>
      print (Progress i total) ;;
      df <- get_historical_data (name c) (lat c) (lon c) ;;
      let all_data := if negb (empty df) then all_data ++ [df] else all_data in
      time_sleep 2 ;;
      scrape_cities rest (S i) total all_data
  end.

Definition run_scraper_on (cities : list City) : IO unit :=
  print StartingExtraction ;;
  print MayTakeMinutes ;;
  all_data <- scrape_cities cities 1 (List.length cities) [] ;;
  match all_data with
  | _ :: _ =>
      let total_df := List.concat all_data in
      to_csv OUTPUT_FILENAME total_df ;;
      print (ProcessCompleted (List.length total_df) OUTPUT_FILENAME)
  | [] => print FailedToFetchData
  end.

Definition run_scraper : IO unit := run_scraper_on CITIES.

(** The frames [get_historical_data] returns for the cities, one per city
    and in the order of the loop, when [run_scraper]'s loop starts its
    [i]-th pass in [w]. *)
Fixpoint city_frames (cities : list City) (i total : nat) (w : World)
  : list (list MergedRow) :=
  match cities with
  | [] => []
  | c :: rest =>
      match get_historical_data (name c) (lat c) (lon c)
              (log (Print (Progress i total)) w) with
      | (Ok df, w') => df :: city_frames rest (S i) total (log (Sleep 2) w')
      | (Raise _, _) => []
      end
  end.

End GetHistoricalData.

(** *** The vocabulary of the statements *)

(** [w'] is [w] after some more steps in which [n] requests were sent and
    nothing was written: the network and the files are the same. *)
Definition after (n : nat) (w w' : World) : Prop :=
  net w' = net w /\ files w' = files w /\
  written (trace w') = written (trace w) /\ sent w' = (sent w + n)%nat.

(** The responses the next requests for [url] meet, in order. *)
Definition next_responses (w : World) (url : Url) (rs : list Response) : Prop :=
  forall i r, nth_error rs i = Some r -> net w (sent w + i)%nat url = Some r.

(** A response that makes the loop wait and go round again. *)
Definition backoff (wait_time : Z) (r : Response) : Z :=
  if status_code r =? 429 then wait_time
  else if status_code r >=? 500 then wait_time
  else 2.

(** The calendar days that an [int64] of nanoseconds can fall on,
    1677-09-21 to 2262-04-11. *)
Definition timestamp_day (z : Z) : Prop :=
  day_of int64_min <= z <= day_of int64_max.

(** Whether the [time] cell of a left row is the string [d]. *)
Definition has_key {L : Type} (d : string) (l : Json * L) : bool :=
  match fst l with
  | JStr s => String.eqb s d
  | _ => false
  end.

(** The dates of the right frame that some row of the left frame has too. *)
Definition common_dates {L R : Type} (left : list (Json * L))
    (right : list (string * R)) : list string :=
  filter (fun d => existsb (has_key d) left) (map fst right).

(** The date of a row of the join. *)
Definition merge_key {L R : Type} (r : string * L * R) : string := fst (fst r).

(** What one pass of the loop of [safe_request] does with what its request
    meets: [None] when it returns (a 200 whose body parses), else the
    seconds it sleeps before the next pass. A request that raises and a 200
    whose body does not parse both end in the [except] branch. *)
Definition retry_wait (wait_time : Z) (o : option Response) : option Z :=
  match o with
  | None => Some wait_time
  | Some r =>
      if status_code r =? 200 then
        match body r with
        | Some _ => None
        | None => Some wait_time
        end
      else Some (backoff wait_time r)
  end.

(** What the next requests for [url] meet, in order. *)
Definition next_outcomes (w : World) (url : Url) (os : list (option Response))
  : Prop :=
  forall i o, nth_error os i = Some o -> net w (sent w + i)%nat url = o.

(** The string cells of the key column of a left frame, in order. *)
Definition string_keys {L : Type} (left : list (Json * L)) : list string :=
  flat_map (fun l => match fst l with JStr s => [s] | _ => [] end) left.

(** *** A concrete pandas and concrete worlds *)

Definition digit_value (c : ascii) : option Z :=
  let n := Z.of_nat (nat_of_ascii c) in
  if (48 <=? n) && (n <=? 57) then Some (n - 48) else None.

Fixpoint number (s : string) (acc : Z) : option Z :=
  match s with
  | EmptyString => Some acc
  | String c rest =>
      match digit_value c with
      | Some v => number rest (10 * acc + v)
      | None => None
      end
  end.

(** Timestamps as both APIs print them, [YYYY-MM-DDTHH:MM]. *)
Definition iso8601 (s : string) : option Z :=
  if Nat.eqb (String.length s) 16
     && String.eqb (substring 4 1 s) "-" && String.eqb (substring 7 1 s) "-"
     && String.eqb (substring 10 1 s) "T" && String.eqb (substring 13 1 s) ":"
  then
    match number (substring 0 4 s) 0, number (substring 5 2 s) 0,
          number (substring 8 2 s) 0, number (substring 11 2 s) 0,
          number (substring 14 2 s) 0 with
    | Some y, Some m, Some d, Some hh, Some mm =>
        Some (((days_from_civil y m d * 24 + hh) * 60 + mm) * 60000000000)
    | _, _, _, _, _ => None
    end
  else None.

(** The mean of the values that are not NaN; NaN when there is none. *)
Definition nanmean (xs : list float) : float :=
  let ys := filter (fun x => negb (is_nan x)) xs in
  (fold_left PrimFloat.add ys 0
   / PrimFloat.of_uint63 (Uint63.of_Z (Z.of_nat (List.length ys))))%float.

Definition iso_pandas : Pandas := {|
  to_datetime := fun v => match v with
                          | JStr s => option_map Some (iso8601 s)
                          | JNull => Some None
                          | _ => None
                          end;
  mean := nanmean;
  DataFrame_of_other := fun _ => inl ValueError
|}.

(** A world in which the [n]-th request meets the [n]-th of [rs]. *)
Definition scripted (rs : list Response) : World :=
  mkWorld (fun n _ => nth_error rs n) 0 [] [].

(** The same, with requests that raise ([None]) among the answers. *)
Definition scripted_outcomes (os : list (option Response)) : World :=
  mkWorld (fun n _ => nth n os None) 0 [] [].

(** A world in which each API always answers the same. *)
Definition served (archive air_quality : option Response) : World :=
  mkWorld (fun _ url => match api url with
                        | ArchiveApi => archive
                        | AirQualityApi => air_quality
                        end) 0 [] [].

Definition example_weather : Json :=
  JObj [("latitude", JNum 52.23);
        ("daily",
         JObj [("time", JArr [JStr "2016-01-01"; JStr "2016-01-02";
                              JStr "2016-01-03"; JStr "2016-01-04"]);
               ("temperature_2m_mean", JArr [JNum 1.5; JNum 0; JNum (-2); JNull]);
               ("wind_speed_10m_max", JArr [JNum 12; JNum 8.5; JNum 25; JNum 7]);
               ("precipitation_sum", JArr [JNum 0; JNum 0.3; JNum 0; JNum 1])])].

(** Hourly values on 1 and 3 January only: resampling adds 2 January. *)
Definition example_air : Json :=
  JObj [("latitude", JNum 52.23);
        ("hourly",
         JObj [("time", JArr [JStr "2016-01-01T00:00"; JStr "2016-01-01T01:00";
                              JStr "2016-01-01T02:00"; JStr "2016-01-01T03:00";
                              JStr "2016-01-03T12:00"]);
               ("pm10", JArr [JNum 10; JNum 20; JNum 30; JNum 40; JNum 60]);
               ("pm2_5", JArr [JNum 5; JNull; JNum 7; JNum 9; JNum 11])])].

Definition example_weather_rows : list (Json * list (string * Json)) :=
  Eval vm_compute in
    match weather_series (pandas := iso_pandas) example_weather with
    | inr rows => rows
    | inl _ => []
    end.

Definition example_air_daily : list (string * list (string * float)) :=
  Eval vm_compute in
    match air_series (pandas := iso_pandas) example_air with
    | inr rows => rows
    | inl _ => []
    end.

Definition example_world : World :=
  served (Some (mkResponse 200 (Some example_weather)))
         (Some (mkResponse 200 (Some example_air))).

Definition any_url : Url := mkUrl ArchiveApi 52.23 21.01 START_DATE "2016-01-05".

Definition Warszawa : City := mkCity "Warszawa" 52.23 21.01.

(** The air-quality API answers with an object that has no ["hourly"]. *)
Definition no_hourly_world : World :=
  served (Some (mkResponse 200 (Some example_weather)))
         (Some (mkResponse 200 (Some (JObj [("error", JBool true)])))).

(** The weather API answers 200 with [{}]; and the air-quality API does. *)
Definition empty_weather_world : World :=
  served (Some (mkResponse 200 (Some (JObj [])))) None.

Definition empty_air_world : World :=
  served (Some (mkResponse 200 (Some example_weather)))
         (Some (mkResponse 200 (Some (JObj [])))).

(** No request gets through. *)
Definition offline : World := mkWorld (fun _ _ => None) 0 [] [].

(** *** Properties of [safe_request] *)

Lemma next_responses_tail w w' url r rs :
  next_responses w url (r :: rs) -> after 1 w w' -> next_responses w' url rs.
Proof.
  intros H (Hnet & _ & _ & Hsent) i r' Hi.
  rewrite Hnet, Hsent.
  replace (sent w + 1 + i)%nat with (sent w + S i)%nat by lia.
  apply H. exact Hi.
Qed.

Lemma next_responses_head w url r rs :
  next_responses w url (r :: rs) -> net w (sent w) url = Some r.
Proof.
  intros H. specialize (H 0%nat r eq_refl).
  now rewrite Nat.add_0_r in H.
Qed.

Lemma attempt_once_returns url retries wait_time attempt w status payload :
  net w (sent w) url = Some (mkResponse status (Some payload)) ->
  status = 200 ->
  attempt_once url retries wait_time attempt w =
    (Ok (Some payload),
     mkWorld (net w) (S (sent w)) (Get url :: trace w) (files w)).
Proof.
  intros Hnet ->.
  unfold attempt_once, try_except, bind, requests_get.
  rewrite Hnet. reflexivity.
Qed.

Lemma attempt_once_retries url retries wait_time attempt w r :
  net w (sent w) url = Some r ->
  status_code r <> 200 ->
  exists m,
    attempt_once url retries wait_time attempt w =
      (Ok None,
       mkWorld (net w) (S (sent w))
               (Sleep (backoff wait_time r) :: Print m :: Get url :: trace w)
               (files w)).
Proof.
  intros Hnet Hstatus.
  unfold attempt_once, try_except, bind, requests_get, backoff.
  rewrite Hnet.
  apply Z.eqb_neq in Hstatus. rewrite Hstatus.
  destruct (status_code r =? 429); [eexists; reflexivity|].
  destruct (status_code r >=? 500); eexists; reflexivity.
Qed.

(** Whatever the network does, one pass neither raises nor touches the
    files, and sends exactly one request. *)
Lemma attempt_once_total url retries wait_time attempt w :
  exists o w',
    attempt_once url retries wait_time attempt w = (Ok o, w') /\ after 1 w w'.
Proof.
  unfold attempt_once, try_except, bind, requests_get, response_json, after.
  destruct (net w (sent w) url) as [r|]; cbn.
  - destruct (status_code r =? 200).
    + destruct (body r); cbn; do 2 eexists; (split; [reflexivity|]); cbn;
        repeat split; lia.
    + destruct (status_code r =? 429); [|destruct (status_code r >=? 500)];
        cbn; do 2 eexists; (split; [reflexivity|]); cbn; repeat split; lia.
  - do 2 eexists; (split; [reflexivity|]); cbn; repeat split; lia.
Qed.

Lemma after_trans n m w1 w2 w3 :
  after n w1 w2 -> after m w2 w3 -> after (n + m) w1 w3.
Proof.
  intros (N1 & F1 & T1 & S1) (N2 & F2 & T2 & S2).
  repeat split; try congruence. lia.
Qed.

Lemma safe_request_loop_total url retries wait_time attempts w :
  exists j w' n,
    safe_request_loop url retries wait_time attempts w = (Ok j, w') /\
    after n w w' /\ (n <= List.length attempts)%nat.
Proof.
  revert w. induction attempts as [|a rest IH]; intros w.
  - exists JNull, w, 0%nat. cbn. unfold after. repeat split; lia.
  - destruct (attempt_once_total url retries wait_time a w) as (o & w1 & E & A1).
    cbn [safe_request_loop]. unfold bind at 1. rewrite E.
    destruct o as [j|].
    + exists j, w1, 1%nat. cbn. repeat split; try apply A1; lia.
    + destruct (IH w1) as (j & w2 & n & E2 & A2 & Hn).
      exists j, w2, (1 + n)%nat. split; [exact E2|]. split.
      * eapply after_trans; eassumption.
      * cbn. lia.
Qed.

(** [safe_request] never raises and sends at most [retries] requests. *)
Lemma safe_request_total url retries wait_time w :
  exists j w' n,
    safe_request url retries wait_time w = (Ok j, w') /\
    after n w w' /\ (n <= retries)%nat.
Proof.
  destruct (safe_request_loop_total url retries wait_time (seq 0 retries) w)
    as (j & w' & n & E & A & Hn).
  rewrite length_seq in Hn. now exists j, w', n.
Qed.

(** When every remaining response asks for a retry, the loop runs dry: it
    returns [None] after one request and one wait per remaining attempt. *)
Lemma safe_request_loop_exhausted url retries wait_time attempts rs w :
  List.length rs = List.length attempts ->
  next_responses w url rs ->
  Forall (fun r => status_code r <> 200) rs ->
  exists w',
    safe_request_loop url retries wait_time attempts w = (Ok JNull, w') /\
    after (List.length attempts) w w' /\
    sleeps (trace w') = rev (map (backoff wait_time) rs) ++ sleeps (trace w).
Proof.
  revert rs w. induction attempts as [|a rest IH]; intros rs w Hlen Hnext Hall.
  - destruct rs; [|discriminate]. exists w. cbn. unfold after.
    repeat split; lia.
  - destruct rs as [|r rs]; [discriminate|].
    inversion Hall as [|? ? Hr Hrs]; subst.
    destruct (attempt_once_retries url retries wait_time a w r
                (next_responses_head _ _ _ _ Hnext) Hr) as (m & E).
    cbn [safe_request_loop]. unfold bind at 1. rewrite E.
    set (w1 := mkWorld _ _ _ _).
    assert (A1 : after 1 w w1) by (unfold after, w1; cbn; repeat split; lia).
    destruct (IH rs w1) as (w' & E' & A' & S').
    + cbn in Hlen. lia.
    + eapply next_responses_tail; eassumption.
    + exact Hrs.
    + exists w'. split; [exact E'|]. split.
      * apply (after_trans 1 _ _ _ _ A1 A').
      * rewrite S'. unfold w1. cbn. rewrite <- app_assoc. reflexivity.
Qed.

(** When the responses are some that ask for a retry and then a 200 with a
    JSON body, and enough attempts remain, the loop returns that body after
    one wait per earlier response. *)
Lemma safe_request_loop_succeeds url retries wait_time rs payload :
  forall attempts w,
  (List.length rs < List.length attempts)%nat ->
  next_responses w url (rs ++ [mkResponse 200 (Some payload)]) ->
  Forall (fun r => status_code r <> 200) rs ->
  exists w',
    safe_request_loop url retries wait_time attempts w = (Ok payload, w') /\
    after (S (List.length rs)) w w' /\
    sleeps (trace w') = rev (map (backoff wait_time) rs) ++ sleeps (trace w).
Proof.
  induction rs as [|r rs IH]; intros attempts w Hlen Hnext Hall;
    (destruct attempts as [|a rest]; [cbn in Hlen; lia|]).
  - cbn [safe_request_loop]. unfold bind at 1.
    erewrite attempt_once_returns;
      [|apply (next_responses_head _ _ _ _ Hnext)|reflexivity].
    eexists. split; [reflexivity|]. unfold after. cbn. repeat split; lia.
  - inversion Hall as [|? ? Hr Hrs]; subst.
    destruct (attempt_once_retries url retries wait_time a w r
                (next_responses_head _ _ _ _ Hnext) Hr) as (m & E).
    cbn [safe_request_loop]. unfold bind at 1. rewrite E.
    set (w1 := mkWorld _ _ _ _).
    assert (A1 : after 1 w w1) by (unfold after, w1; cbn; repeat split; lia).
    destruct (IH rest w1) as (w' & E' & A' & S').
    + cbn in Hlen. lia.
    + eapply next_responses_tail; eassumption.
    + exact Hrs.
    + exists w'. split; [exact E'|]. split.
      * apply (after_trans 1 _ _ _ _ A1 A').
      * rewrite S'. unfold w1. cbn. rewrite <- app_assoc. reflexivity.
Qed.

(** C2. With [retries=5]: when the next responses are 500, 500 and then a
    200 whose body parses to [payload], [safe_request] returns [payload]
    after three requests and exactly two waits of [wait_time]; when the
    next five responses are all 500, it returns [None] (it does not raise)
    after exactly five requests. *)
Theorem safe_request_retry_policy url wait_time w1 w2 b1 b2 payload bs :
  next_responses w1 url
    [mkResponse 500 b1; mkResponse 500 b2; mkResponse 200 (Some payload)] ->
  next_responses w2 url (map (mkResponse 500) bs) ->
  List.length bs = 5%nat ->
  (exists w1',
     safe_request url 5 wait_time w1 = (Ok payload, w1') /\
     after 3 w1 w1' /\
     sleeps (trace w1') = [wait_time; wait_time] ++ sleeps (trace w1)) /\
  (exists w2',
     safe_request url 5 wait_time w2 = (Ok JNull, w2') /\
     after 5 w2 w2' /\
     sleeps (trace w2') = repeat wait_time 5 ++ sleeps (trace w2)).
Proof.
  intros H1 H2 Hbs. split.
  - apply (safe_request_loop_succeeds url 5%nat wait_time
             [mkResponse 500 b1; mkResponse 500 b2] payload (seq 0 5) w1).
    + cbn. lia.
    + exact H1.
    + repeat constructor; cbn; discriminate.
  - destruct (safe_request_loop_exhausted url 5%nat wait_time (seq 0 5)
                (map (mkResponse 500) bs) w2) as (w' & E & A & S).
    + rewrite length_map, length_seq. exact Hbs.
    + exact H2.
    + apply Forall_forall. intros r Hr. apply in_map_iff in Hr.
      destruct Hr as (b & <- & _). cbn. discriminate.
    + exists w'. split; [exact E|]. split; [exact A|].
      rewrite S. f_equal.
      do 6 (destruct bs as [|? bs]; try discriminate). reflexivity.
Qed.

(** *** Different days of timestamps print differently *)

Lemma in_days_from n : forall lo z,
  In z (days_from lo n) <-> lo <= z < lo + Z.of_nat n.
Proof.
  induction n as [|n IH]; intros lo z; cbn [days_from In].
  - lia.
  - rewrite IH. lia.
Qed.

Lemma NoDup_days_from n : forall lo, NoDup (days_from lo n).
Proof.
  induction n as [|n IH]; intros lo; cbn; constructor.
  - rewrite in_days_from. lia.
  - apply IH.
Qed.

Lemma in_day_range lo hi z : In z (day_range lo hi) <-> lo <= z <= hi.
Proof. unfold day_range. rewrite in_days_from. lia. Qed.

(** The year of the era, and the day of that year, of a day of the era. *)
Lemma yoe_bounds doe :
  0 <= doe <= 146096 ->
  let yoe := (doe - doe / 1460 + doe / 36524 - doe / 146096) / 365 in
  0 <= yoe <= 399 /\
  0 <= doe - (365 * yoe + yoe / 4 - yoe / 100) <= 365 /\
  (doe - (365 * yoe + yoe / 4 - yoe / 100) = 365 -> (yoe mod 4 = 3 /\ (yoe mod 100 <> 99 \/ yoe = 399))).
Proof.
  intros H yoe. subst yoe.
  Z.to_euclidean_division_equations; lia.
Qed.

(** A day number is the day number of its date. *)
Lemma civil_roundtrip z :
  let '(y, m, d) := civil_from_days z in
  days_from_civil y m d = z /\ 1 <= m <= 12 /\ 1 <= d <= 31.
Proof.
  unfold civil_from_days, days_from_civil.
  remember (z + 719468) as z' eqn:Ez.
  remember (z' / 146097) as era eqn:Eera.
  remember (z' - era * 146097) as doe eqn:Edoe.
  assert (Hdoe : 0 <= doe <= 146096)
    by (subst doe era; Z.to_euclidean_division_equations; lia).
  pose proof (yoe_bounds doe Hdoe) as Hy. cbv zeta in Hy.
  remember ((doe - doe / 1460 + doe / 36524 - doe / 146096) / 365) as yoe eqn:Eyoe.
  clear Eyoe Eera.
  remember (doe - (365 * yoe + yoe / 4 - yoe / 100)) as doy eqn:Edoy.
  remember ((5 * doy + 2) / 153) as mp eqn:Emp.
  assert (Hmp : 0 <= mp <= 11)
    by (subst mp; Z.to_euclidean_division_equations; lia).
  destruct (Z.ltb_spec mp 10) as [Hlt|Hge].
  - destruct (Z.leb_spec (mp + 3) 2) as [?|_]; [lia|].
    destruct (Z.gtb_spec (mp + 3) 2) as [_|?]; [|lia].
    replace (mp + 3 - 3) with mp by lia.
    Z.to_euclidean_division_equations; lia.
  - destruct (Z.leb_spec (mp - 9) 2) as [_|?]; [|lia].
    destruct (Z.gtb_spec (mp - 9) 2) as [?|_]; [lia|].
    replace (mp - 9 + 9) with mp by lia.
    replace (yoe + era * 400 + 1 - 1) with (yoe + era * 400) by lia.
    Z.to_euclidean_division_equations; lia.
Qed.

(** The year of a timestamp has four digits. *)
Lemma civil_year_bounds z :
  timestamp_day z ->
  let '(y, m, d) := civil_from_days z in 0 <= y <= 9999.
Proof.
  intros Hz. change (-106752 <= z <= 106751) in Hz.
  pose proof (civil_roundtrip z) as H.
  destruct (civil_from_days z) as [[y m] d]. destruct H as (E & Hm & Hd).
  unfold days_from_civil in E.
  destruct (Z.leb_spec m 2); destruct (Z.gtb_spec m 2); try lia;
    Z.to_euclidean_division_equations; lia.
Qed.

Lemma timestamp_day_of ns :
  int64_min <= ns <= int64_max -> timestamp_day (day_of ns).
Proof.
  intros H. unfold timestamp_day, day_of, ns_per_day.
  split; apply Z.div_le_mono; lia.
Qed.

Lemma digit_inj a b : digit a = digit b -> a mod 10 = b mod 10.
Proof.
  unfold digit. intros H.
  apply (f_equal nat_of_ascii) in H.
  pose proof (Z.mod_pos_bound a 10 ltac:(lia)).
  pose proof (Z.mod_pos_bound b 10 ltac:(lia)).
  rewrite !nat_ascii_embedding in H by lia. lia.
Qed.

Lemma digits2_inj a b :
  0 <= a <= 99 -> 0 <= b <= 99 -> digits2 a = digits2 b -> a = b.
Proof.
  unfold digits2. intros Ha Hb H. injection H as H1 H0.
  apply digit_inj in H1, H0. Z.to_euclidean_division_equations. lia.
Qed.

Lemma digits4_inj a b :
  0 <= a <= 9999 -> 0 <= b <= 9999 -> digits4 a = digits4 b -> a = b.
Proof.
  unfold digits4, digits2. intros Ha Hb H. injection H as H3 H2 H1 H0.
  apply digit_inj in H3, H2, H1, H0. Z.to_euclidean_division_equations. lia.
Qed.

Lemma strftime_Ymd_inj a b :
  timestamp_day a -> timestamp_day b ->
  strftime_Ymd a = strftime_Ymd b -> a = b.
Proof.
  intros Ha Hb.
  pose proof (civil_roundtrip a) as Ra. pose proof (civil_year_bounds a Ha) as Ya.
  pose proof (civil_roundtrip b) as Rb. pose proof (civil_year_bounds b Hb) as Yb.
  unfold strftime_Ymd.
  destruct (civil_from_days a) as [[y m] d].
  destruct (civil_from_days b) as [[y' m'] d'].
  destruct Ra as (Ea & Hm & Hd), Rb as (Eb & Hm' & Hd').
  intros H.
  assert (E : digits4 y = digits4 y' /\ digits2 m = digits2 m' /\
              digits2 d = digits2 d').
  { unfold digits4, digits2 in *. cbn [append] in H.
    injection H as -> -> -> -> -> -> -> ->. auto. }
  destruct E as (Ey & Em & Ed).
  apply digits4_inj in Ey; [|lia|lia].
  apply digits2_inj in Em; [|lia|lia].
  apply digits2_inj in Ed; [|lia|lia].
  congruence.
Qed.

(** *** Properties of [pd_merge] *)

Lemma in_pd_merge {L R : Type} (left : list (Json * L))
    (right : list (string * R)) d x y :
  In (d, x, y) (pd_merge left right) <->
  In (JStr d, x) left /\ In (d, y) right.
Proof.
  unfold pd_merge. rewrite in_flat_map. split.
  - intros ([k x'] & Hl & Hin). cbn in Hin.
    destruct k as [| | |s| |]; try contradiction.
    apply in_map_iff in Hin. destruct Hin as ([d' y'] & E & Hf).
    apply filter_In in Hf. destruct Hf as (Hr & Hd). cbn in *.
    apply String.eqb_eq in Hd. inversion E; subst. auto.
  - intros (Hl & Hr). exists (JStr d, x). split; [exact Hl|]. cbn.
    apply in_map_iff. exists (d, y). split; [reflexivity|].
    apply filter_In. split; [exact Hr|]. cbn. apply String.eqb_refl.
Qed.

Lemma in_pd_merge_keys {L R : Type} (left : list (Json * L))
    (right : list (string * R)) d :
  In d (map merge_key (pd_merge left right)) <->
  In (JStr d) (map fst left) /\ In d (map fst right).
Proof.
  rewrite !in_map_iff. split.
  - intros ([[d' x] y] & E & Hin). cbn in E. subst d'.
    apply in_pd_merge in Hin. destruct Hin as (Hl & Hr).
    split; [exists (JStr d, x) | exists (d, y)]; auto.
  - intros (([k x] & Ek & Hl) & ([d' y] & Ed & Hr)). cbn in *. subst.
    exists (d, x, y). split; [reflexivity|]. apply in_pd_merge. auto.
Qed.

Lemma existsb_has_key {L : Type} (left : list (Json * L)) d :
  existsb (has_key d) left = true <-> In (JStr d) (map fst left).
Proof.
  rewrite existsb_exists, in_map_iff. unfold has_key. split.
  - intros ([k x] & Hin & Hk). cbn in Hk.
    destruct k; try discriminate. apply String.eqb_eq in Hk. subst.
    exists (JStr d, x). auto.
  - intros ([k x] & E & Hin). cbn in E. subst k.
    exists (JStr d, x). split; [exact Hin|]. cbn. apply String.eqb_refl.
Qed.

Lemma in_common_dates {L R : Type} (left : list (Json * L))
    (right : list (string * R)) d :
  In d (common_dates left right) <->
  In (JStr d) (map fst left) /\ In d (map fst right).
Proof.
  unfold common_dates. rewrite filter_In, existsb_has_key. tauto.
Qed.

(** With distinct keys on the right, a left row meets at most one row. *)
Lemma one_match {R : Type} (right : list (string * R)) s :
  NoDup (map fst right) ->
  (List.length (filter (fun r => String.eqb (fst r) s) right) <= 1)%nat.
Proof.
  induction right as [|[d y] right IH]; intros Hnd; cbn; [lia|].
  inversion Hnd as [|? ? Hd Hrest]; subst.
  destruct (String.eqb_spec d s) as [->|_]; [|auto].
  cbn. enough (filter (fun r => String.eqb (fst r) s) right = []) as ->
    by (cbn; lia).
  destruct (filter _ right) as [|[d' y'] tl] eqn:E; [reflexivity|].
  exfalso. apply Hd.
  assert (Hin : In (d', y') (filter (fun r => String.eqb (fst r) s) right))
    by (rewrite E; left; reflexivity).
  apply filter_In in Hin. destruct Hin as (Hin & Hk). cbn in Hk.
  apply String.eqb_eq in Hk. subst d'.
  apply in_map_iff. exists (s, y'). auto.
Qed.

(** Distinct keys on both sides give distinct keys in the join. *)
Lemma NoDup_pd_merge_keys {L R : Type} (left : list (Json * L))
    (right : list (string * R)) :
  NoDup (map fst left) -> NoDup (map fst right) ->
  NoDup (map merge_key (pd_merge left right)).
Proof.
  intros Hl Hr. induction left as [|[k x] left IH]; [constructor|].
  inversion Hl as [|? ? Hk Hrest]; subst.
  change (pd_merge ((k, x) :: left) right)
    with (match k with
          | JStr s => map (fun r => (s, x, snd r))
                          (filter (fun r => String.eqb (fst r) s) right)
          | _ => []
          end ++ pd_merge left right).
  rewrite map_app. apply NoDup_app; [| apply IH; exact Hrest |].
  - destruct k as [| | |s| |]; try constructor.
    pose proof (one_match right s Hr) as Hone.
    destruct (filter _ right) as [|r [|r' tl]]; cbn in *;
      [constructor | repeat constructor; intros [] | lia].
  - intros d Hd Hd'. apply in_pd_merge_keys in Hd'. destruct Hd' as (Hd' & _).
    destruct k as [| | |s| |]; try contradiction.
    apply in_map_iff in Hd. destruct Hd as ([[d0 x0] y0] & E & Hin).
    apply in_map_iff in Hin. destruct Hin as (r & E' & _).
    inversion E'; subst. cbn in Hd'. contradiction.
Qed.

(** *** Properties of [get_historical_data] and [run_scraper] *)

Section CollectorFacts.

Context {pandas : Pandas}.
Variable END_DATE : string.

Notation get_historical_data := (get_historical_data END_DATE).
Notation scrape_cities := (scrape_cities END_DATE).
Notation run_scraper_on := (run_scraper_on END_DATE).
Notation weather_url := (weather_url END_DATE).
Notation air_url := (air_url END_DATE).
Notation city_frames := (city_frames END_DATE).

Lemma after_log n e w w' :
  (forall f rows, e <> ToCsv f rows) -> after n w w' -> after n w (log e w').
Proof.
  intros H (N & F & T & S). repeat split; try assumption.
  destruct e; try exact T. now destruct (H filename rows).
Qed.

Lemma after_log_l n e w w' :
  (forall f rows, e <> ToCsv f rows) -> after n (log e w) w' -> after n w w'.
Proof.
  intros H (N & F & T & S). repeat split; try assumption.
  destruct e; try exact T. now destruct (H filename rows).
Qed.

Lemma after_refl w : after 0 w w.
Proof. unfold after. repeat split; lia. Qed.

(** Discharges the steps that only print or sleep. *)
Ltac quiet_step :=
  first [ apply after_log; [intros; discriminate|]
        | apply after_log_l; [intros; discriminate|] ].

(** The [try] block never lets an exception out, and sends nothing. *)
Lemma process_total city_name w_data a_data w :
  exists df w', process city_name w_data a_data w = (Ok df, w') /\ after 0 w w'.
Proof.
  unfold process, try_except, bind, lift, raise, ret, print, emit.
  destruct (getitem w_data "daily") as [e|daily]; cbn.
  { do 2 eexists. split; [reflexivity|]. quiet_step; apply after_refl. }
  destruct (pd_DataFrame daily) as [e|df_weather]; cbn.
  { do 2 eexists. split; [reflexivity|]. quiet_step; apply after_refl. }
  destruct (contains "hourly" a_data) as [e|[|]]; cbn.
  { do 2 eexists. split; [reflexivity|]. quiet_step; apply after_refl. }
  2: { do 2 eexists. split; [reflexivity|]. quiet_step; apply after_refl. }
  destruct (getitem a_data "hourly") as [e|hourly]; cbn.
  { do 2 eexists. split; [reflexivity|]. quiet_step; apply after_refl. }
  destruct (air_daily hourly) as [e|df_air_daily]; cbn.
  { do 2 eexists. split; [reflexivity|]. quiet_step; apply after_refl. }
  destruct (keyed_rows "time" df_weather) as [e|weather_rows]; cbn.
  { do 2 eexists. split; [reflexivity|]. quiet_step; apply after_refl. }
  do 2 eexists. split; [reflexivity|]. quiet_step; apply after_refl.
Qed.

(** Unfolding [get_historical_data] along its two fetches. *)
Lemma get_historical_data_weather city_name lat lon w w_data w1 :
  safe_request (weather_url lat lon) 5 10 (log (Print (FetchingData city_name)) w)
    = (Ok w_data, w1) ->
  get_historical_data city_name lat lon w =
    if truthy w_data then
      (a_data <- safe_request (air_url lat lon) 5 10 ;;
       if negb (truthy a_data) then print AirQualityApiError ;; ret []
       else process city_name w_data a_data) (log (Sleep 1) w1)
    else (Ok [], log (Print WeatherApiError) w1).
Proof.
  intros E. unfold Scraper.get_historical_data.
  unfold bind at 1. unfold print at 1, emit. unfold bind at 1. fold weather_url.
  rewrite E. destruct (truthy w_data); reflexivity.
Qed.

Lemma get_historical_data_air city_name lat lon w w_data w1 a_data w2 :
  safe_request (weather_url lat lon) 5 10 (log (Print (FetchingData city_name)) w)
    = (Ok w_data, w1) ->
  truthy w_data = true ->
  safe_request (air_url lat lon) 5 10 (log (Sleep 1) w1) = (Ok a_data, w2) ->
  get_historical_data city_name lat lon w =
    if truthy a_data then process city_name w_data a_data w2
    else (Ok [], log (Print AirQualityApiError) w2).
Proof.
  intros E1 T E2. rewrite (get_historical_data_weather _ _ _ _ _ _ E1), T.
  unfold bind at 1. rewrite E2. destruct (truthy a_data); reflexivity.
Qed.

(** [get_historical_data] always returns a frame: no exception escapes it,
    and it writes no file. *)
Lemma get_historical_data_total city_name lat lon w :
  exists df w' n,
    get_historical_data city_name lat lon w = (Ok df, w') /\ after n w w'.
Proof.
  destruct (safe_request_total (weather_url lat lon) 5 10
              (log (Print (FetchingData city_name)) w))
    as (w_data & w1 & n1 & E1 & A1 & _).
  apply after_log_l in A1; [|intros; discriminate].
  rewrite (get_historical_data_weather _ _ _ _ _ _ E1).
  destruct (truthy w_data) eqn:T.
  - destruct (safe_request_total (air_url lat lon) 5 10 (log (Sleep 1) w1))
      as (a_data & w2 & n2 & E2 & A2 & _).
    apply after_log_l in A2; [|intros; discriminate].
    unfold bind at 1. rewrite E2.
    destruct (truthy a_data); cbn.
    + destruct (process_total city_name w_data a_data w2) as (df & w3 & E3 & A3).
      exists df, w3, (n1 + (n2 + 0))%nat. split; [exact E3|].
      eauto using after_trans.
    + exists [], (log (Print AirQualityApiError) w2), (n1 + n2)%nat.
      split; [reflexivity|]. quiet_step. eauto using after_trans.
  - exists [], (log (Print WeatherApiError) w1), n1.
    split; [reflexivity|]. quiet_step. exact A1.
Qed.

(** *** The join of the two daily series *)

Lemma traverse_Forall {A B} (f : A -> Exn + B) (P : B -> Prop) xs ys :
  (forall x y, f x = inr y -> P y) ->
  traverse f xs = inr ys -> Forall P ys.
Proof.
  intros Hf. revert ys. induction xs as [|x xs IH]; intros ys H; cbn in H.
  - inversion H. constructor.
  - destruct (f x) as [e|y] eqn:E; [discriminate|].
    destruct (traverse f xs) as [e|ys']; [discriminate|].
    inversion H; subst. constructor; eauto.
Qed.

Lemma to_timestamp_int64 v ns :
  to_timestamp v = inr (Some ns) -> int64_min <= ns <= int64_max.
Proof.
  unfold to_timestamp. intros H.
  assert (G : match to_datetime v with
              | Some (Some t) =>
                  if (int64_min <=? t) && (t <=? int64_max) then inr (Some t)
                  else inl OutOfBoundsDatetime
              | Some None => inr None
              | None => inl ValueError
              end = inr (Some ns)) by (destruct v; (discriminate H || exact H)).
  clear H. destruct (to_datetime v) as [[t|]|]; try discriminate.
  destruct (andb _ _) eqn:E; [|discriminate].
  inversion G; subst. apply andb_prop in E. lia.
Qed.

Lemma in_timestamps cells ns : In ns (timestamps cells) <-> In (Some ns) cells.
Proof.
  unfold timestamps. rewrite in_flat_map. split.
  - intros ([t|] & Hc & Hin); [|contradiction].
    destruct Hin as [->|[]]. exact Hc.
  - intros H. exists (Some ns). split; [exact H|now left].
Qed.

Lemma fold_min_max_bounds lo hi d ds :
  Forall (fun x => lo <= x <= hi) (d :: ds) ->
  lo <= fold_right Z.min d ds /\ fold_right Z.max d ds <= hi.
Proof.
  intros H. inversion H as [|? ? Hd Hds]; subst. clear H.
  cbv beta in Hd.
  induction Hds as [|x ds Hx _ IH]; cbn in *; lia.
Qed.

Lemma resample_days_ok stamps day :
  Forall (fun ns => int64_min <= ns <= int64_max) stamps ->
  In day (resample_days stamps) -> timestamp_day day.
Proof.
  unfold resample_days. intros Hall Hin.
  assert (Hdays : Forall timestamp_day (map day_of stamps)).
  { apply Forall_map. eapply Forall_impl; [|exact Hall].
    intros ns Hns. now apply timestamp_day_of. }
  destruct (map day_of stamps) as [|d ds]; [contradiction|].
  apply in_day_range in Hin.
  destruct (fold_min_max_bounds _ _ _ _ Hdays).
  unfold timestamp_day. lia.
Qed.

Lemma NoDup_resample_days stamps : NoDup (resample_days stamps).
Proof.
  unfold resample_days. destruct (map day_of stamps); [constructor|].
  apply NoDup_days_from.
Qed.

Lemma resample_daily_dates stamps values :
  map fst (resample_daily stamps values) =
    map strftime_Ymd (resample_days (timestamps stamps)).
Proof. unfold resample_daily. rewrite map_map. reflexivity. Qed.

(** The resampled series has one row per calendar day. *)
Lemma NoDup_air_daily hourly df_air_daily :
  air_daily hourly = inr df_air_daily -> NoDup (map fst df_air_daily).
Proof.
  unfold air_daily.
  destruct (pd_DataFrame hourly) as [e|df]; [discriminate|].
  destruct (column "time" df) as [e|cells]; [discriminate|].
  destruct (traverse to_timestamp cells) as [e|stamps] eqn:Et; [discriminate|].
  destruct (traverse _ (other_columns "time" df)) as [e|values]; [discriminate|].
  intros H.
  assert (G : resample_daily stamps values = df_air_daily)
    by (destruct stamps; [|destruct (timestamps _)]; congruence).
  subst df_air_daily. clear H.
  rewrite resample_daily_dates.
  assert (Hall : Forall (fun ns => int64_min <= ns <= int64_max)
                   (timestamps stamps)).
  { apply Forall_forall. intros ns Hns. apply in_timestamps in Hns.
    pose proof (traverse_Forall to_timestamp
                  (fun c => forall t, c = Some t -> int64_min <= t <= int64_max)
                  cells stamps) as HF.
    rewrite Forall_forall in HF. eapply HF; [|exact Et|exact Hns|reflexivity].
    intros v c Hv t ->. now apply (to_timestamp_int64 v). }
  apply NoDup_map_NoDup_ForallPairs; [|apply NoDup_resample_days].
  intros a b Ha Hb. apply strftime_Ymd_inj; eapply resample_days_ok; eauto.
Qed.

Lemma NoDup_air_series a_data df_air_daily :
  air_series a_data = inr df_air_daily -> NoDup (map fst df_air_daily).
Proof.
  unfold air_series.
  destruct (contains "hourly" a_data) as [e|[|]]; try discriminate.
  destruct (getitem a_data "hourly") as [e|hourly]; [discriminate|].
  apply NoDup_air_daily.
Qed.

Lemma process_joins city_name w_data a_data weather_rows df_air_daily w :
  weather_series w_data = inr weather_rows ->
  air_series a_data = inr df_air_daily ->
  process city_name w_data a_data w =
    (Ok (map (merged_row city_name) (pd_merge weather_rows df_air_daily)),
     log (Print (Success (List.length (pd_merge weather_rows df_air_daily)))) w).
Proof.
  unfold weather_series, air_series, process, try_except, bind, lift.
  destruct (getitem w_data "daily") as [e|daily]; [discriminate|].
  cbv beta iota delta [ret].
  destruct (pd_DataFrame daily) as [e|df_weather]; [discriminate|].
  cbv beta iota delta [ret]. intros Hw.
  destruct (contains "hourly" a_data) as [e|[|]]; try discriminate.
  cbv beta iota delta [ret negb].
  destruct (getitem a_data "hourly") as [e|hourly]; [discriminate|].
  cbv beta iota delta [ret]. intros Ha. rewrite Ha.
  cbv beta iota. rewrite Hw.
  unfold print, emit. cbv beta iota. rewrite length_map. reflexivity.
Qed.

Lemma get_historical_data_joins city_name lat lon w w_data w1 a_data w2
    weather_rows df_air_daily :
  safe_request (weather_url lat lon) 5 10 (log (Print (FetchingData city_name)) w)
    = (Ok w_data, w1) ->
  truthy w_data = true ->
  safe_request (air_url lat lon) 5 10 (log (Sleep 1) w1) = (Ok a_data, w2) ->
  truthy a_data = true ->
  weather_series w_data = inr weather_rows ->
  air_series a_data = inr df_air_daily ->
  get_historical_data city_name lat lon w =
    (Ok (map (merged_row city_name) (pd_merge weather_rows df_air_daily)),
     log (Print (Success (List.length (pd_merge weather_rows df_air_daily)))) w2).
Proof.
  intros E1 T1 E2 T2 Hw Ha.
  rewrite (get_historical_data_air _ _ _ _ _ _ _ _ E1 T1 E2), T2.
  now apply process_joins.
Qed.

Lemma time_merged_rows city_name
    (rows : list (string * list (string * Json) * list (string * float))) :
  map time (map (merged_row city_name) rows) = map merge_key rows.
Proof. rewrite map_map. reflexivity. Qed.

(** C1. When both fetches of a city succeed and give the daily weather
    series [weather_rows] (one row per date) and the daily-resampled
    air-quality series [df_air_daily], the merged frame has exactly one row
    for each date that is in both series and no row for any other date; its
    row count is the number of dates the two series share. *)
Theorem merged_rows_are_the_common_dates city_name lat lon w w_data w1
    a_data w2 weather_rows df_air_daily :
  safe_request (weather_url lat lon) 5 10 (log (Print (FetchingData city_name)) w)
    = (Ok w_data, w1) ->
  truthy w_data = true ->
  safe_request (air_url lat lon) 5 10 (log (Sleep 1) w1) = (Ok a_data, w2) ->
  truthy a_data = true ->
  weather_series w_data = inr weather_rows ->
  air_series a_data = inr df_air_daily ->
  NoDup (map fst weather_rows) ->
  exists final_df w',
    get_historical_data city_name lat lon w = (Ok final_df, w') /\
    NoDup (map time final_df) /\
    (forall d, In d (map time final_df) <->
               In (JStr d) (map fst weather_rows) /\
               In d (map fst df_air_daily)) /\
    List.length final_df =
      List.length (common_dates weather_rows df_air_daily).
Proof.
  intros E1 T1 E2 T2 Hw Ha Hnd.
  pose proof (NoDup_air_series _ _ Ha) as Hnd'.
  do 2 eexists. split; [eapply get_historical_data_joins; eassumption|].
  rewrite time_merged_rows.
  assert (Hkeys : NoDup (map merge_key (pd_merge weather_rows df_air_daily)))
    by now apply NoDup_pd_merge_keys.
  split; [exact Hkeys|]. split; [apply in_pd_merge_keys|].
  rewrite length_map, <- (length_map merge_key).
  apply Permutation_length, NoDup_Permutation.
  - exact Hkeys.
  - apply NoDup_filter. exact Hnd'.
  - intros d. rewrite in_pd_merge_keys, in_common_dates. tauto.
Qed.

(** C9 as the code has it. The weather series and the resampled
    air-quality series are combined by an inner join on the date: a row of
    the weather series is kept, with its date and its values, exactly when
    its date is also a date of the resampled air-quality series. *)
Theorem inner_join_keeps_common_dates city_name lat lon w w_data w1
    a_data w2 weather_rows df_air_daily :
  safe_request (weather_url lat lon) 5 10 (log (Print (FetchingData city_name)) w)
    = (Ok w_data, w1) ->
  truthy w_data = true ->
  safe_request (air_url lat lon) 5 10 (log (Sleep 1) w1) = (Ok a_data, w2) ->
  truthy a_data = true ->
  weather_series w_data = inr weather_rows ->
  air_series a_data = inr df_air_daily ->
  exists final_df w',
    get_historical_data city_name lat lon w = (Ok final_df, w') /\
    forall d values,
      In (JStr d, values) weather_rows ->
      (In d (map fst df_air_daily) <->
       exists row, In row final_df /\ time row = d /\
                   weather_values row = values).
Proof.
  intros E1 T1 E2 T2 Hw Ha.
  do 2 eexists. split; [eapply get_historical_data_joins; eassumption|].
  intros d values Hin. split.
  - intros Hd. apply in_map_iff in Hd. destruct Hd as ([d' y] & E & Hr).
    cbn in E. subst d'.
    exists (merged_row city_name (d, values, y)). split; [|auto].
    apply in_map, in_pd_merge. auto.
  - intros (row & Hrow & Ht & _).
    apply in_map_iff in Hrow. destruct Hrow as ([[d' x] y] & E & Hm).
    subst row. cbn in Ht. subst d'.
    apply in_pd_merge in Hm. destruct Hm as (_ & Hr).
    apply in_map_iff. exists (d, y). auto.
Qed.

(** C5. A city whose weather fetch or air-quality fetch returns no data (a
    falsy value), or whose air-quality answer has no ["hourly"] field,
    yields the empty frame; the loop of [run_scraper] leaves [all_data] as
    it was, takes its 2 s pause and goes on with the remaining cities. *)
Theorem failed_city_is_skipped c rest i total all_data w w_data w1 :
  safe_request (weather_url (lat c) (lon c)) 5 10
    (log (Print (FetchingData (name c))) (log (Print (Progress i total)) w))
    = (Ok w_data, w1) ->
  (truthy w_data = false \/
   truthy w_data = true /\
   exists a_data w2,
     safe_request (air_url (lat c) (lon c)) 5 10 (log (Sleep 1) w1)
       = (Ok a_data, w2) /\
     (truthy a_data = false \/ contains "hourly" a_data = inr false)) ->
  exists w',
    get_historical_data (name c) (lat c) (lon c)
      (log (Print (Progress i total)) w) = (Ok [], w') /\
    scrape_cities (c :: rest) i total all_data w =
      scrape_cities rest (S i) total all_data (log (Sleep 2) w').
Proof.
  intros E1 H.
  assert (G : exists w',
             get_historical_data (name c) (lat c) (lon c)
               (log (Print (Progress i total)) w) = (Ok [], w')).
  { destruct H as [F | (T & a_data & w2 & E2 & H)].
    - rewrite (get_historical_data_weather _ _ _ _ _ _ E1), F. eauto.
    - rewrite (get_historical_data_air _ _ _ _ _ _ _ _ E1 T E2).
      destruct (truthy a_data) eqn:Ta; [|eauto].
      destruct H as [F | Hc]; [discriminate|].
      unfold process, try_except, bind, lift, raise, ret, print, emit.
      destruct (getitem w_data "daily") as [e|daily]; cbn; [eauto|].
      destruct (pd_DataFrame daily) as [e|df_weather]; cbn; [eauto|].
      rewrite Hc. cbn. eauto. }
  destruct G as (w' & G). exists w'. split; [exact G|].
  cbn [Scraper.scrape_cities]. unfold bind at 1, print at 1, emit at 1.
  unfold bind at 1. rewrite G. reflexivity.
Qed.

(** C10. A 200 answer whose JSON body is falsy is handled exactly as an
    exhausted fetch is. For the weather request the city ends with the
    weather-API error after that single request; for the air-quality
    request (the weather fetch having given a truthy value) it ends with
    the air-quality-API error; and a fetch that ran out of retries, which
    returns [None], ends in the same two ways. Each time the frame is
    empty, so the city is skipped. *)
Theorem falsy_body_is_an_api_error city_name lat lon falsy w v w_data v1 :
  truthy falsy = false ->
  net w (sent w) (weather_url lat lon) = Some (mkResponse 200 (Some falsy)) ->
  safe_request (weather_url lat lon) 5 10 (log (Print (FetchingData city_name)) v)
    = (Ok w_data, v1) ->
  truthy w_data = true ->
  net v1 (sent v1) (air_url lat lon) = Some (mkResponse 200 (Some falsy)) ->
  get_historical_data city_name lat lon w =
    (Ok [],
     log (Print WeatherApiError)
       (mkWorld (net w) (S (sent w))
          (Get (weather_url lat lon) :: Print (FetchingData city_name) :: trace w)
          (files w))) /\
  get_historical_data city_name lat lon v =
    (Ok [],
     log (Print AirQualityApiError)
       (mkWorld (net v1) (S (sent v1))
          (Get (air_url lat lon) :: Sleep 1 :: trace v1) (files v1))) /\
  (forall u u1,
     safe_request (weather_url lat lon) 5 10
       (log (Print (FetchingData city_name)) u) = (Ok JNull, u1) ->
     get_historical_data city_name lat lon u =
       (Ok [], log (Print WeatherApiError) u1)) /\
  (forall v2,
     safe_request (air_url lat lon) 5 10 (log (Sleep 1) v1) = (Ok JNull, v2) ->
     get_historical_data city_name lat lon v =
       (Ok [], log (Print AirQualityApiError) v2)).
Proof.
  intros F Hw Ev Tv Hv. split; [|split; [|split]].
  - erewrite get_historical_data_weather.
    2: { unfold safe_request. cbn [seq safe_request_loop]. unfold bind at 1.
         erewrite attempt_once_returns; [reflexivity|exact Hw|reflexivity]. }
    rewrite F. reflexivity.
  - erewrite get_historical_data_air; [| exact Ev | exact Tv |].
    2: { unfold safe_request. cbn [seq safe_request_loop]. unfold bind at 1.
         erewrite attempt_once_returns; [reflexivity|exact Hv|reflexivity]. }
    rewrite F. reflexivity.
  - intros u u1 Eu.
    now rewrite (get_historical_data_weather _ _ _ _ _ _ Eu).
  - intros v2 E2.
    now rewrite (get_historical_data_air _ _ _ _ _ _ _ _ Ev Tv E2).
Qed.

(** The loop collects the non-empty frames, in order, and writes no file. *)
Lemma scrape_cities_collects cities :
  forall i total all_data w,
  exists w' n,
    scrape_cities cities i total all_data w =
      (Ok (all_data ++ filter (fun df => negb (empty df))
                              (city_frames cities i total w)), w') /\
    after n w w' /\
    List.length (city_frames cities i total w) = List.length cities.
Proof.
  induction cities as [|c rest IH]; intros i total all_data w.
  - exists w, 0%nat. cbn. rewrite app_nil_r. split; [reflexivity|].
    split; [apply after_refl | reflexivity].
  - destruct (get_historical_data_total (name c) (lat c) (lon c)
                (log (Print (Progress i total)) w)) as (df & w1 & n1 & E & A1).
    apply after_log_l in A1; [|intros; discriminate].
    cbn [Scraper.scrape_cities city_frames].
    unfold bind at 1, print at 1, emit at 1. unfold bind at 1. rewrite E.
    unfold bind at 1, time_sleep at 1, emit at 1.
    destruct (IH (S i) total
                (if negb (empty df) then all_data ++ [df] else all_data)
                (log (Sleep 2) w1)) as (w' & n & E' & A' & L').
    exists w', (n1 + n)%nat. rewrite E'. split; [|split].
    + f_equal. f_equal. cbn [filter].
      destruct (negb (empty df)); [rewrite <- app_assoc|]; reflexivity.
    + apply after_log_l in A'; [|intros; discriminate]. eauto using after_trans.
    + cbn. now rewrite L'.
Qed.

Lemma no_frame_kept (dfs : list (list MergedRow)) :
  Forall (fun df => df = []) dfs ->
  filter (fun df => negb (empty df)) dfs = [].
Proof.
  induction 1 as [|df dfs Hdf _ IH]; [reflexivity|]. subst df. exact IH.
Qed.

(** C8. When every city's frame is empty, [run_scraper] returns normally
    (it raises nothing), its last act is the report that fetching failed,
    and it has written no file: the files are those it started with and
    its trace records no [to_csv]. *)
Theorem no_city_no_file cities w :
  Forall (fun df => df = [])
    (city_frames cities 1 (List.length cities)
       (log (Print MayTakeMinutes) (log (Print StartingExtraction) w))) ->
  exists w',
    run_scraper_on cities w = (Ok tt, w') /\
    files w' = files w /\
    written (trace w') = written (trace w) /\
    hd_error (trace w') = Some (Print FailedToFetchData).
Proof.
  intros H. unfold Scraper.run_scraper_on.
  unfold bind at 1, print at 1, emit at 1.
  unfold bind at 1, print at 1, emit at 1.
  set (w0 := log (Print MayTakeMinutes) (log (Print StartingExtraction) w)) in *.
  destruct (scrape_cities_collects cities 1 (List.length cities) [] w0)
    as (w' & n & E & A & _).
  unfold bind at 1. rewrite E.
  rewrite (no_frame_kept _ H). cbn [app].
  exists (log (Print FailedToFetchData) w'). split; [reflexivity|].
  destruct A as (_ & F & T & _). cbn. auto.
Qed.

End CollectorFacts.

(** *** Concrete runs *)

Example example_air_daily_dates :
  map fst example_air_daily = ["2016-01-01"; "2016-01-02"; "2016-01-03"].
Proof. reflexivity. Qed.

Example example_run :
  exists w',
    get_historical_data (pandas := iso_pandas) "2016-01-05" "Warszawa"
      52.23 21.01 example_world
    = (Ok (map (merged_row "Warszawa")
             (pd_merge example_weather_rows example_air_daily)), w') /\
    map time (map (merged_row "Warszawa")
                (pd_merge example_weather_rows example_air_daily))
    = ["2016-01-01"; "2016-01-02"; "2016-01-03"].
Proof. eexists. split; vm_compute; reflexivity. Qed.

(** A scalar beside the arrays is repeated to their length; scalars alone
    raise. *)
Example example_scalar_column :
  pd_DataFrame (pandas := iso_pandas)
    (JObj [("time", JArr [JStr "2016-01-01"; JStr "2016-01-02"]);
           ("pm10", JNum 7)])
  = inr [("time", [JStr "2016-01-01"; JStr "2016-01-02"]);
         ("pm10", [JNum 7; JNum 7])] /\
  pd_DataFrame (pandas := iso_pandas) (JObj [("time", JNull); ("pm10", JNum 7)])
  = inl ValueError.
Proof. split; reflexivity. Qed.

(** An hourly row whose time is null is left out of the daily means: the
    day keeps the mean of its other rows. When no row has a time there is
    no daily series. *)
Example example_null_time :
  map fst (resample_daily (pandas := iso_pandas)
             [Some 0; None; Some 3600000000000]
             [("pm10", [10; 1000; 20]%float)])
  = ["1970-01-01"] /\
  air_daily (pandas := iso_pandas)
    (JObj [("time", JArr [JStr "2016-01-01T00:00"; JNull;
                          JStr "2016-01-02T00:00"]);
           ("pm10", JArr [JNum 10; JNum 1000; JNum 30])])
  = inr [("2016-01-01", [("pm10", 10%float)]);
         ("2016-01-02", [("pm10", 30%float)])] /\
  air_daily (pandas := iso_pandas)
    (JObj [("time", JArr [JNull; JNull]); ("pm10", JArr [JNum 10; JNum 20])])
  = inl ValueError.
Proof. repeat split; vm_compute; reflexivity. Qed.

Lemma next_responses_scripted rs url : next_responses (scripted rs) url rs.
Proof. intros i r H. exact H. Qed.

Lemma safe_request_retry_policy_witness :
  (exists w1',
     safe_request any_url 5 10
       (scripted [mkResponse 500 None; mkResponse 500 None;
                  mkResponse 200 (Some example_weather)])
     = (Ok example_weather, w1') /\
     after 3 (scripted [mkResponse 500 None; mkResponse 500 None;
                        mkResponse 200 (Some example_weather)]) w1' /\
     sleeps (trace w1') = [10; 10]) /\
  (exists w2',
     safe_request any_url 5 10 (scripted (repeat (mkResponse 500 None) 5))
     = (Ok JNull, w2') /\
     after 5 (scripted (repeat (mkResponse 500 None) 5)) w2' /\
     sleeps (trace w2') = [10; 10; 10; 10; 10]).
Proof.
  apply (safe_request_retry_policy any_url 10
           (scripted [mkResponse 500 None; mkResponse 500 None;
                      mkResponse 200 (Some example_weather)])
           (scripted (repeat (mkResponse 500 None) 5))
           None None example_weather [None; None; None; None; None]).
  - apply next_responses_scripted.
  - apply next_responses_scripted.
  - reflexivity.
Defined.

Lemma merged_rows_are_the_common_dates_witness :
  exists final_df w',
    get_historical_data (pandas := iso_pandas) "2016-01-05" "Warszawa"
      52.23 21.01 example_world = (Ok final_df, w') /\
    NoDup (map time final_df) /\
    (forall d, In d (map time final_df) <->
               In (JStr d) (map fst example_weather_rows) /\
               In d (map fst example_air_daily)) /\
    List.length final_df =
      List.length (common_dates example_weather_rows example_air_daily).
Proof.
  eapply (merged_rows_are_the_common_dates (pandas := iso_pandas) "2016-01-05"
            "Warszawa" 52.23 21.01 example_world example_weather _
            example_air _ example_weather_rows example_air_daily).
  - vm_compute. reflexivity.
  - reflexivity.
  - vm_compute. reflexivity.
  - reflexivity.
  - reflexivity.
  - reflexivity.
  - repeat constructor; cbn; intuition discriminate.
Defined.

(** C9 as the spec words it fails: 2016-01-04 is a date of the weather
    series, the run succeeds, and the merged frame has no row for it. *)
Lemma left_join_counterexample :
  In (JStr "2016-01-04") (map fst example_weather_rows) /\
  exists final_df w',
    get_historical_data (pandas := iso_pandas) "2016-01-05" "Warszawa"
      52.23 21.01 example_world = (Ok final_df, w') /\
    ~ In "2016-01-04" (map time final_df).
Proof.
  split; [cbn; tauto|].
  do 2 eexists. split; [vm_compute; reflexivity|].
  cbn. intuition discriminate.
Qed.

Lemma inner_join_keeps_common_dates_witness :
  exists final_df w',
    get_historical_data (pandas := iso_pandas) "2016-01-05" "Warszawa"
      52.23 21.01 example_world = (Ok final_df, w') /\
    forall d values,
      In (JStr d, values) example_weather_rows ->
      (In d (map fst example_air_daily) <->
       exists row, In row final_df /\ time row = d /\
                   weather_values row = values).
Proof.
  eapply (inner_join_keeps_common_dates (pandas := iso_pandas) "2016-01-05"
            "Warszawa" 52.23 21.01 example_world example_weather _
            example_air _ example_weather_rows example_air_daily).
  - vm_compute. reflexivity.
  - reflexivity.
  - vm_compute. reflexivity.
  - reflexivity.
  - reflexivity.
  - reflexivity.
Defined.

Lemma failed_city_is_skipped_witness :
  exists w',
    get_historical_data (pandas := iso_pandas) "2016-01-05" "Warszawa" 52.23 21.01
      (log (Print (Progress 1 20)) no_hourly_world) = (Ok [], w') /\
    scrape_cities (pandas := iso_pandas) "2016-01-05" (Warszawa :: CITIES) 1 20 []
      no_hourly_world =
    scrape_cities (pandas := iso_pandas) "2016-01-05" CITIES 2 20 []
      (log (Sleep 2) w').
Proof.
  eapply (failed_city_is_skipped (pandas := iso_pandas) "2016-01-05" Warszawa
            CITIES 1 20 [] no_hourly_world example_weather).
  - vm_compute. reflexivity.
  - right. split; [reflexivity|].
    do 2 eexists. split; [vm_compute; reflexivity|].
    right. reflexivity.
Defined.

Lemma falsy_body_is_an_api_error_witness :
  (exists w',
     get_historical_data (pandas := iso_pandas) "2016-01-05" "Warszawa"
       52.23 21.01 empty_weather_world = (Ok [], w') /\
     trace w' = [Print WeatherApiError;
                 Get (weather_url "2016-01-05" 52.23 21.01);
                 Print (FetchingData "Warszawa")]) /\
  (exists v',
     get_historical_data (pandas := iso_pandas) "2016-01-05" "Warszawa"
       52.23 21.01 empty_air_world = (Ok [], v') /\
     trace v' = [Print AirQualityApiError;
                 Get (air_url "2016-01-05" 52.23 21.01);
                 Sleep 1;
                 Get (weather_url "2016-01-05" 52.23 21.01);
                 Print (FetchingData "Warszawa")]).
Proof.
  destruct (falsy_body_is_an_api_error (pandas := iso_pandas) "2016-01-05"
              "Warszawa" 52.23 21.01 (JObj []) empty_weather_world
              empty_air_world example_weather
              (mkWorld (net empty_air_world) 1
                 [Get (weather_url "2016-01-05" 52.23 21.01);
                  Print (FetchingData "Warszawa")] []))
    as (Hw & Hv & _ & _).
  - reflexivity.
  - reflexivity.
  - vm_compute. reflexivity.
  - reflexivity.
  - reflexivity.
  - split; eexists; (split; [eassumption|reflexivity]).
Defined.

Lemma no_city_no_file_witness :
  exists w',
    run_scraper (pandas := iso_pandas) "2016-01-05" offline = (Ok tt, w') /\
    files w' = [] /\
    written (trace w') = [] /\
    hd_error (trace w') = Some (Print FailedToFetchData).
Proof.
  apply (no_city_no_file (pandas := iso_pandas) "2016-01-05" CITIES offline).
  assert (E : city_frames (pandas := iso_pandas) "2016-01-05" CITIES 1
                (List.length CITIES)
                (log (Print MayTakeMinutes) (log (Print StartingExtraction) offline))
              = repeat [] 20) by (vm_compute; reflexivity).
  rewrite E. repeat constructor.
Defined.

(** *** More on [safe_request] *)

Lemma next_outcomes_head w url o os :
  next_outcomes w url (o :: os) -> net w (sent w) url = o.
Proof.
  intros H. specialize (H 0%nat o eq_refl). now rewrite Nat.add_0_r in H.
Qed.

Lemma next_outcomes_tail w w' url o os :
  next_outcomes w url (o :: os) -> after 1 w w' -> next_outcomes w' url os.
Proof.
  intros H (Hnet & _ & _ & Hsent) i o' Hi. rewrite Hnet, Hsent.
  replace (sent w + 1 + i)%nat with (sent w + S i)%nat by lia.
  now apply H.
Qed.

(** A pass whose request does not end in a parsed 200 prints one line,
    sleeps and leaves the loop going. *)
Lemma attempt_once_waits url retries wait_time attempt w seconds :
  retry_wait wait_time (net w (sent w) url) = Some seconds ->
  exists m,
    attempt_once url retries wait_time attempt w =
      (Ok None,
       mkWorld (net w) (S (sent w))
               (Sleep seconds :: Print m :: Get url :: trace w) (files w)).
Proof.
  unfold retry_wait, attempt_once, try_except, bind, requests_get, response_json,
    backoff.
  destruct (net w (sent w) url) as [r|]; cbn.
  - destruct (status_code r =? 200).
    + destruct (body r); [discriminate|]. intros H. inversion H; subst.
      eexists. reflexivity.
    + destruct (status_code r =? 429); [|destruct (status_code r >=? 500)];
        intros H; inversion H; subst; eexists; reflexivity.
  - intros H. inversion H; subst. eexists. reflexivity.
Qed.

Lemma attempt_once_parses url retries wait_time attempt w :
  retry_wait wait_time (net w (sent w) url) = None ->
  exists r payload,
    net w (sent w) url = Some r /\ status_code r = 200 /\
    body r = Some payload /\
    attempt_once url retries wait_time attempt w =
      (Ok (Some payload),
       mkWorld (net w) (S (sent w)) (Get url :: trace w) (files w)).
Proof.
  unfold retry_wait, attempt_once, try_except, bind, requests_get, response_json.
  destruct (net w (sent w) url) as [r|]; [|discriminate]. cbn.
  destruct (Z.eqb_spec (status_code r) 200) as [E|_]; [|discriminate].
  destruct (body r) as [payload|] eqn:B; [|discriminate].
  intros _. exists r, payload. rewrite B. auto.
Qed.

Lemma safe_request_loop_sources url retries wait_time attempts :
  forall w,
  exists j w' n,
    safe_request_loop url retries wait_time attempts w = (Ok j, w') /\
    after n w w' /\
    ((exists r, (0 < n)%nat /\
                net w (sent w + (n - 1))%nat url = Some r /\
                status_code r = 200 /\ body r = Some j) \/
     (j = JNull /\ n = List.length attempts)).
Proof.
  induction attempts as [|a rest IH]; intros w.
  - exists JNull, w, 0%nat. cbn. split; [reflexivity|].
    split; [unfold after; repeat split; lia|]. now right.
  - cbn [safe_request_loop]. unfold bind at 1.
    destruct (retry_wait wait_time (net w (sent w) url)) as [seconds|] eqn:R.
    + destruct (attempt_once_waits url retries wait_time a w seconds R) as (m & E).
      rewrite E. set (w1 := mkWorld _ _ _ _).
      assert (A1 : after 1 w w1) by (unfold after, w1; cbn; repeat split; lia).
      destruct (IH w1) as (j & w' & n & E' & A' & H).
      exists j, w', (1 + n)%nat. split; [exact E'|].
      split; [eapply after_trans; eassumption|].
      destruct H as [(r & Hn & Hr & Hs & Hb)|(-> & ->)].
      * left. exists r. repeat split; try assumption; [lia|].
        destruct A1 as (N1 & _ & _ & S1). rewrite N1, S1 in Hr.
        replace (sent w + (1 + n - 1))%nat with (sent w + 1 + (n - 1))%nat by lia.
        exact Hr.
      * right. split; reflexivity.
    + destruct (attempt_once_parses url retries wait_time a w R)
        as (r & payload & Hr & Hs & Hb & E).
      rewrite E. exists payload, (mkWorld (net w) (S (sent w))
                                    (Get url :: trace w) (files w)), 1%nat.
      split; [reflexivity|].
      split; [unfold after; cbn; repeat split; lia|].
      left. exists r. rewrite Nat.add_0_r. repeat split; try assumption. lia.
Qed.

(** X1. Whatever the network does, [safe_request] raises nothing and writes
    no file. It sends no more than [retries] requests, and what it returns
    is either the parsed body of a 200 answer to the last request it sent,
    or [None] after all [retries] requests. *)
Theorem safe_request_returns_a_200_body_or_none url retries wait_time w :
  exists j w' n,
    safe_request url retries wait_time w = (Ok j, w') /\
    net w' = net w /\ files w' = files w /\
    written (trace w') = written (trace w) /\
    sent w' = (sent w + n)%nat /\ (n <= retries)%nat /\
    ((exists r, (0 < n)%nat /\
                net w (sent w + (n - 1))%nat url = Some r /\
                status_code r = 200 /\ body r = Some j) \/
     (j = JNull /\ n = retries)).
Proof.
  destruct (safe_request_loop_sources url retries wait_time (seq 0 retries) w)
    as (j & w' & n & E & (N & F & T & S) & H).
  destruct (safe_request_loop_total url retries wait_time (seq 0 retries) w)
    as (j0 & w0 & n0 & E0 & (_ & _ & _ & S0) & Hn0).
  unfold safe_request. rewrite E in E0. inversion E0; subst j0 w0.
  rewrite length_seq in *.
  exists j, w', n. repeat split; try assumption; lia.
Qed.

Lemma safe_request_loop_waits url retries wait_time attempts :
  forall os waits w,
  List.length os = List.length attempts ->
  next_outcomes w url os ->
  map (retry_wait wait_time) os = map Some waits ->
  exists w',
    safe_request_loop url retries wait_time attempts w = (Ok JNull, w') /\
    after (List.length attempts) w w' /\
    sleeps (trace w') = rev waits ++ sleeps (trace w).
Proof.
  induction attempts as [|a rest IH]; intros os waits w Hlen Hnext Hwaits.
  - destruct os; [|discriminate]. destruct waits; [|discriminate].
    exists w. cbn. unfold after. repeat split; lia.
  - destruct os as [|o os]; [discriminate|].
    destruct waits as [|s waits]; [discriminate|].
    cbn in Hwaits. inversion Hwaits as [[Ho Hos]].
    rewrite <- (next_outcomes_head _ _ _ _ Hnext) in Ho.
    destruct (attempt_once_waits url retries wait_time a w s Ho) as (m & E).
    cbn [safe_request_loop]. unfold bind at 1. rewrite E.
    set (w1 := mkWorld _ _ _ _).
    assert (A1 : after 1 w w1) by (unfold after, w1; cbn; repeat split; lia).
    destruct (IH os waits w1) as (w' & E' & A' & S').
    + cbn in Hlen. lia.
    + eapply next_outcomes_tail; eassumption.
    + exact Hos.
    + exists w'. split; [exact E'|]. split.
      * apply (after_trans 1 _ _ _ _ A1 A').
      * rewrite S'. unfold w1. cbn. rewrite <- app_assoc. reflexivity.
Qed.

(** X2. When none of the next [retries] requests ends in a 200 with a JSON
    body, [safe_request] returns [None] after exactly [retries] requests,
    having slept once after each: [wait_time] after a 429, a status of 500
    or more, a request that raised or a 200 whose body does not parse, and
    2 seconds after any other status, which uses up an attempt like the
    rest. *)
Theorem safe_request_gives_up url retries wait_time w os waits :
  List.length os = retries ->
  next_outcomes w url os ->
  map (retry_wait wait_time) os = map Some waits ->
  exists w',
    safe_request url retries wait_time w = (Ok JNull, w') /\
    sent w' = (sent w + retries)%nat /\
    sleeps (trace w') = rev waits ++ sleeps (trace w).
Proof.
  intros Hlen Hnext Hwaits.
  destruct (safe_request_loop_waits url retries wait_time (seq 0 retries)
              os waits w) as (w' & E & (_ & _ & _ & S) & Z).
  - now rewrite length_seq.
  - exact Hnext.
  - exact Hwaits.
  - rewrite length_seq in S. exists w'. auto.
Qed.

Lemma safe_request_loop_first_parse url retries wait_time :
  forall os waits attempts w r payload,
  (List.length os < List.length attempts)%nat ->
  next_outcomes w url (os ++ [Some r]) ->
  map (retry_wait wait_time) os = map Some waits ->
  status_code r = 200 -> body r = Some payload ->
  exists w',
    safe_request_loop url retries wait_time attempts w = (Ok payload, w') /\
    after (S (List.length os)) w w' /\
    sleeps (trace w') = rev waits ++ sleeps (trace w).
Proof.
  induction os as [|o os IH]; intros waits attempts w r payload Hlen Hnext Hwaits
    Hs Hb; (destruct attempts as [|a rest]; [cbn in Hlen; lia|]).
  - destruct waits; [|discriminate].
    cbn [safe_request_loop]. unfold bind at 1.
    pose proof (next_outcomes_head _ _ _ _ Hnext) as Hr.
    destruct r as [status b]. cbn in Hs, Hb. subst.
    erewrite attempt_once_returns; [|exact Hr|reflexivity].
    eexists. split; [reflexivity|]. unfold after. cbn. repeat split; lia.
  - destruct waits as [|s waits]; [discriminate|].
    cbn in Hwaits. inversion Hwaits as [[Ho Hos]].
    rewrite <- (next_outcomes_head _ _ _ _ Hnext) in Ho.
    destruct (attempt_once_waits url retries wait_time a w s Ho) as (m & E).
    cbn [safe_request_loop]. unfold bind at 1. rewrite E.
    set (w1 := mkWorld _ _ _ _).
    assert (A1 : after 1 w w1) by (unfold after, w1; cbn; repeat split; lia).
    destruct (IH waits rest w1 r payload) as (w' & E' & A' & S'); try assumption.
    + cbn in Hlen. lia.
    + eapply next_outcomes_tail; eassumption.
    + exists w'. split; [exact E'|]. split.
      * apply (after_trans 1 _ _ _ _ A1 A').
      * rewrite S'. unfold w1. cbn. rewrite <- app_assoc. reflexivity.
Qed.

(** X3. [safe_request] stops at the first 200 whose body parses: when
    fewer than [retries] requests fail before it, the body is returned, no
    request is sent after it, and the sleeps are those of the failed
    requests only. *)
Theorem safe_request_stops_at_first_success url retries wait_time w os waits
    r payload :
  (List.length os < retries)%nat ->
  next_outcomes w url (os ++ [Some r]) ->
  map (retry_wait wait_time) os = map Some waits ->
  status_code r = 200 -> body r = Some payload ->
  exists w',
    safe_request url retries wait_time w = (Ok payload, w') /\
    sent w' = (sent w + List.length os + 1)%nat /\
    sleeps (trace w') = rev waits ++ sleeps (trace w).
Proof.
  intros Hlen Hnext Hwaits Hs Hb.
  destruct (safe_request_loop_first_parse url retries wait_time os waits
              (seq 0 retries) w r payload) as (w' & E & (_ & _ & _ & S) & Z);
    try assumption.
  - now rewrite length_seq.
  - exists w'. split; [exact E|]. split; [lia|exact Z].
Qed.

Lemma next_outcomes_scripted os url :
  next_outcomes (scripted_outcomes os) url os.
Proof.
  intros i o H. cbn. now apply nth_error_nth.
Qed.

Lemma safe_request_gives_up_witness :
  exists w',
    safe_request any_url 4 10
      (scripted_outcomes [Some (mkResponse 404 None); None;
                          Some (mkResponse 200 None);
                          Some (mkResponse 429 None)])
    = (Ok JNull, w') /\
    sent w' = 4%nat /\
    sleeps (trace w') = [10; 10; 10; 2].
Proof.
  apply (safe_request_gives_up any_url 4 10
           (scripted_outcomes [Some (mkResponse 404 None); None;
                               Some (mkResponse 200 None);
                               Some (mkResponse 429 None)])
           [Some (mkResponse 404 None); None; Some (mkResponse 200 None);
            Some (mkResponse 429 None)] [2; 10; 10; 10]).
  - reflexivity.
  - apply next_outcomes_scripted.
  - reflexivity.
Defined.

Lemma safe_request_stops_at_first_success_witness :
  exists w',
    safe_request any_url 5 10
      (scripted_outcomes [None; Some (mkResponse 403 None);
                          Some (mkResponse 200 (Some example_air))])
    = (Ok example_air, w') /\
    sent w' = 3%nat /\
    sleeps (trace w') = [2; 10].
Proof.
  apply (safe_request_stops_at_first_success any_url 5 10
           (scripted_outcomes [None; Some (mkResponse 403 None);
                               Some (mkResponse 200 (Some example_air))])
           [None; Some (mkResponse 403 None)] [10; 2]
           (mkResponse 200 (Some example_air)) example_air).
  - cbn. lia.
  - apply (next_outcomes_scripted
             [None; Some (mkResponse 403 None);
              Some (mkResponse 200 (Some example_air))]).
  - reflexivity.
  - reflexivity.
  - reflexivity.
Defined.

(** *** More on [get_historical_data] and [run_scraper] *)

Lemma traverse_In {A B} (f : A -> Exn + B) xs ys x y :
  traverse f xs = inr ys -> In x xs -> f x = inr y -> In y ys.
Proof.
  revert ys. induction xs as [|a xs IH]; intros ys H Hin Hx; [contradiction|].
  cbn in H. destruct (f a) as [e|b] eqn:Ea; [discriminate|].
  destruct (traverse f xs) as [e|ys']; [discriminate|].
  inversion H; subst. destruct Hin as [->|Hin].
  - left. congruence.
  - right. eauto.
Qed.

Lemma fold_min_max_elements d ds x :
  In x (d :: ds) -> fold_right Z.min d ds <= x <= fold_right Z.max d ds.
Proof.
  induction ds as [|a ds IH]; cbn; intros H.
  - destruct H as [->|[]]. lia.
  - destruct H as [->|[->|H]].
    + assert (In x (x :: ds)) as Hx by now left. apply IH in Hx. lia.
    + lia.
    + assert (In x (d :: ds)) as Hx by now right. apply IH in Hx. lia.
Qed.

Lemma in_resample_days stamps t1 t2 d :
  In t1 stamps -> In t2 stamps -> day_of t1 <= d <= day_of t2 ->
  In d (resample_days stamps).
Proof.
  intros H1 H2 Hd. unfold resample_days.
  apply (in_map day_of) in H1, H2.
  destruct (map day_of stamps) as [|d0 ds]; [contradiction|].
  apply in_day_range.
  apply fold_min_max_elements in H1, H2. lia.
Qed.

(** With distinct keys on the right, the rows that match a key are one
    when the key is there and none when it is not. *)
Lemma matches_of_key {R : Type} (right : list (string * R)) s :
  NoDup (map fst right) ->
  List.length (filter (fun r => String.eqb (fst r) s) right) =
    if existsb (String.eqb s) (map fst right) then 1%nat else 0%nat.
Proof.
  intros Hnd. pose proof (one_match right s Hnd) as Hone.
  destruct (existsb (String.eqb s) (map fst right)) eqn:E.
  - apply existsb_exists in E. destruct E as (d & Hd & Hs).
    apply String.eqb_eq in Hs. subst d.
    apply in_map_iff in Hd. destruct Hd as (r & Hr & Hin).
    assert (In r (filter (fun r => String.eqb (fst r) s) right)) as Hf.
    { apply filter_In. split; [exact Hin|]. now apply String.eqb_eq. }
    destruct (filter _ right); [contradiction|]. cbn in *. lia.
  - destruct (filter _ right) as [|r tl] eqn:F; [reflexivity|].
    assert (In r (filter (fun r => String.eqb (fst r) s) right)) as Hf
      by (rewrite F; now left).
    apply filter_In in Hf. destruct Hf as (Hin & Hk).
    apply String.eqb_eq in Hk.
    assert (existsb (String.eqb s) (map fst right) = true) as E'; [|congruence].
    apply existsb_exists. exists (fst r). split; [now apply in_map|].
    now apply String.eqb_eq.
Qed.

Lemma pd_merge_keys_in_left_order {L R : Type} (left : list (Json * L))
    (right : list (string * R)) :
  NoDup (map fst right) ->
  map merge_key (pd_merge left right) =
    filter (fun d => existsb (String.eqb d) (map fst right)) (string_keys left).
Proof.
  intros Hnd. induction left as [|[k x] left IH]; [reflexivity|].
  change (pd_merge ((k, x) :: left) right)
    with (match k with
          | JStr s => map (fun r => (s, x, snd r))
                          (filter (fun r => String.eqb (fst r) s) right)
          | _ => []
          end ++ pd_merge left right).
  change (string_keys ((k, x) :: left))
    with (match k with JStr s => [s] | _ => [] end ++ string_keys left).
  rewrite map_app, filter_app, IH. f_equal.
  destruct k as [| | |s| |]; try reflexivity.
  pose proof (matches_of_key right s Hnd) as Hlen. cbn [filter].
  destruct (existsb (String.eqb s) (map fst right));
    destruct (filter _ right) as [|r [|r' tl]]; cbn in Hlen; try lia;
    reflexivity.
Qed.

Lemma concat_nonempty (frames : list (list MergedRow)) :
  List.concat (filter (fun df => negb (empty df)) frames) = List.concat frames.
Proof.
  induction frames as [|df frames IH]; [reflexivity|].
  destruct df; cbn; [exact IH|]. now rewrite IH.
Qed.

Section CollectorMore.

Context {pandas : Pandas}.
Variable END_DATE : string.

Notation get_historical_data := (get_historical_data END_DATE).
Notation scrape_cities := (scrape_cities END_DATE).
Notation run_scraper_on := (run_scraper_on END_DATE).
Notation weather_url := (weather_url END_DATE).
Notation air_url := (air_url END_DATE).
Notation city_frames := (city_frames END_DATE).

Lemma process_tagged city_name w_data a_data w :
  exists df w',
    process city_name w_data a_data w = (Ok df, w') /\ after 0 w w' /\
    Forall (fun row => city row = city_name) df.
Proof.
  assert (Q : forall e, after 0 w (log (Print e) w))
    by (intros e; apply after_log; [intros; discriminate|apply after_refl]).
  unfold process, try_except, bind, lift, raise, ret, print, emit.
  destruct (getitem w_data "daily") as [e|daily]; cbn;
    [do 2 eexists; split; [reflexivity|]; split; [apply Q|constructor]|].
  destruct (pd_DataFrame daily) as [e|df_weather]; cbn;
    [do 2 eexists; split; [reflexivity|]; split; [apply Q|constructor]|].
  destruct (contains "hourly" a_data) as [e|[|]]; cbn;
    [do 2 eexists; split; [reflexivity|]; split; [apply Q|constructor]| |
     do 2 eexists; split; [reflexivity|]; split; [apply Q|constructor]].
  destruct (getitem a_data "hourly") as [e|hourly]; cbn;
    [do 2 eexists; split; [reflexivity|]; split; [apply Q|constructor]|].
  destruct (air_daily hourly) as [e|df_air_daily]; cbn;
    [do 2 eexists; split; [reflexivity|]; split; [apply Q|constructor]|].
  destruct (keyed_rows "time" df_weather) as [e|weather_rows]; cbn;
    [do 2 eexists; split; [reflexivity|]; split; [apply Q|constructor]|].
  do 2 eexists. split; [reflexivity|]. split; [apply Q|].
  apply Forall_map, Forall_forall. reflexivity.
Qed.

Lemma get_historical_data_tagged city_name lat lon w :
  exists df w' n,
    get_historical_data city_name lat lon w = (Ok df, w') /\
    after n w w' /\ (n <= 10)%nat /\
    Forall (fun row => city row = city_name) df.
Proof.
  destruct (safe_request_total (weather_url lat lon) 5 10
              (log (Print (FetchingData city_name)) w))
    as (w_data & w1 & n1 & E1 & A1 & B1).
  apply after_log_l in A1; [|intros; discriminate].
  rewrite (get_historical_data_weather _ _ _ _ _ _ _ E1).
  destruct (truthy w_data) eqn:T.
  - destruct (safe_request_total (air_url lat lon) 5 10 (log (Sleep 1) w1))
      as (a_data & w2 & n2 & E2 & A2 & B2).
    apply after_log_l in A2; [|intros; discriminate].
    unfold bind at 1. rewrite E2.
    destruct (truthy a_data); cbn.
    + destruct (process_tagged city_name w_data a_data w2)
        as (df & w3 & E3 & A3 & H3).
      exists df, w3, (n1 + (n2 + 0))%nat. split; [exact E3|].
      split; [eauto using after_trans|]. split; [lia|exact H3].
    + exists [], (log (Print AirQualityApiError) w2), (n1 + n2)%nat.
      split; [reflexivity|]. split.
      * apply after_log; [intros; discriminate|]. eauto using after_trans.
      * split; [lia|constructor].
  - exists [], (log (Print WeatherApiError) w1), n1.
    split; [reflexivity|]. split.
    + apply after_log; [intros; discriminate|]. exact A1.
    + split; [lia|constructor].
Qed.

(** X4. Whatever the two APIs answer, [get_historical_data] returns a frame
    and raises nothing: every exception of the processing is caught. It
    sends at most ten requests, writes no file, and every row of the frame
    it returns carries the name of the city. *)
Theorem get_historical_data_never_raises city_name lat lon w :
  exists df w' n,
    get_historical_data city_name lat lon w = (Ok df, w') /\
    net w' = net w /\ files w' = files w /\
    written (trace w') = written (trace w) /\
    sent w' = (sent w + n)%nat /\ (n <= 10)%nat /\
    Forall (fun row => city row = city_name) df.
Proof.
  destruct (get_historical_data_tagged city_name lat lon w)
    as (df & w' & n & E & (N & F & T & S) & B & H).
  exists df, w', n. auto 10.
Qed.

(** X5. The merged frame keeps the order of the weather rows: its dates are
    the string dates of the weather series, in their order and as often as
    they occur there, less those that are no date of the resampled
    air-quality series. *)
Theorem merged_rows_follow_the_weather_rows city_name lat lon w w_data w1
    a_data w2 weather_rows df_air_daily :
  safe_request (weather_url lat lon) 5 10 (log (Print (FetchingData city_name)) w)
    = (Ok w_data, w1) ->
  truthy w_data = true ->
  safe_request (air_url lat lon) 5 10 (log (Sleep 1) w1) = (Ok a_data, w2) ->
  truthy a_data = true ->
  weather_series w_data = inr weather_rows ->
  air_series a_data = inr df_air_daily ->
  exists final_df w',
    get_historical_data city_name lat lon w = (Ok final_df, w') /\
    map time final_df =
      filter (fun d => existsb (String.eqb d) (map fst df_air_daily))
             (string_keys weather_rows).
Proof.
  intros E1 T1 E2 T2 Hw Ha.
  do 2 eexists. split; [eapply get_historical_data_joins; eassumption|].
  rewrite time_merged_rows.
  apply pd_merge_keys_in_left_order. eapply NoDup_air_series; eassumption.
Qed.

(** X6. Resampling leaves no day out: the daily series made of the hourly
    answer has a row for the day of every timestamp, and for every day
    between the days of two timestamps, with or without observations; no
    two of its rows have the same date. *)
Theorem resampling_covers_every_day hourly df_air_hourly cells df_air_daily
    cell1 cell2 ns1 ns2 d :
  air_daily hourly = inr df_air_daily ->
  pd_DataFrame hourly = inr df_air_hourly ->
  column "time" df_air_hourly = inr cells ->
  In cell1 cells -> to_timestamp cell1 = inr (Some ns1) ->
  In cell2 cells -> to_timestamp cell2 = inr (Some ns2) ->
  day_of ns1 <= d <= day_of ns2 ->
  In (strftime_Ymd d) (map fst df_air_daily) /\
  NoDup (map fst df_air_daily).
Proof.
  intros Ha Hdf Hcol H1 T1 H2 T2 Hd.
  split; [|eapply NoDup_air_daily; exact Ha].
  unfold air_daily in Ha. rewrite Hdf, Hcol in Ha.
  destruct (traverse to_timestamp cells) as [e|stamps] eqn:Et; [discriminate|].
  destruct (traverse _ (other_columns "time" df_air_hourly)) as [e|values];
    [discriminate|].
  assert (G : resample_daily stamps values = df_air_daily)
    by (destruct stamps; [|destruct (timestamps _)]; congruence).
  subst df_air_daily. rewrite resample_daily_dates. apply in_map.
  eapply in_resample_days;
    [apply in_timestamps; exact (traverse_In _ _ _ _ _ Et H1 T1)
    |apply in_timestamps; exact (traverse_In _ _ _ _ _ Et H2 T2)
    |exact Hd].
Qed.

Lemma scrape_cities_bounded cities :
  forall i total all_data w,
  exists w' n,
    scrape_cities cities i total all_data w =
      (Ok (all_data ++ filter (fun df => negb (empty df))
                              (city_frames cities i total w)), w') /\
    after n w w' /\ (n <= 10 * List.length cities)%nat.
Proof.
  induction cities as [|c rest IH]; intros i total all_data w.
  - exists w, 0%nat. cbn. rewrite app_nil_r. split; [reflexivity|].
    split; [apply after_refl | lia].
  - destruct (get_historical_data_tagged (name c) (lat c) (lon c)
                (log (Print (Progress i total)) w))
      as (df & w1 & n1 & E & A1 & B1 & _).
    apply after_log_l in A1; [|intros; discriminate].
    cbn [Scraper.scrape_cities Scraper.city_frames].
    unfold bind at 1, print at 1, emit at 1. unfold bind at 1. rewrite E.
    unfold bind at 1, time_sleep at 1, emit at 1.
    destruct (IH (S i) total
                (if negb (empty df) then all_data ++ [df] else all_data)
                (log (Sleep 2) w1)) as (w' & n & E' & A' & B').
    exists w', (n1 + n)%nat. rewrite E'. split; [|split].
    + f_equal. f_equal. cbn [filter].
      destruct (negb (empty df)); [rewrite <- app_assoc|]; reflexivity.
    + apply after_log_l in A'; [|intros; discriminate].
      eauto using after_trans.
    + cbn [List.length]. lia.
Qed.

(** X7. When some city gives a frame with rows, [run_scraper] writes one
    file, [dane_polska_2004_2026.csv], holding the rows of the cities'
    frames in the order of the cities, and ends on the report of the
    total. *)
Theorem some_city_one_file cities w df :
  In df (city_frames cities 1 (List.length cities)
           (log (Print MayTakeMinutes) (log (Print StartingExtraction) w))) ->
  df <> [] ->
  exists w' total_df,
    total_df = List.concat
                 (city_frames cities 1 (List.length cities)
                    (log (Print MayTakeMinutes)
                       (log (Print StartingExtraction) w))) /\
    run_scraper_on cities w = (Ok tt, w') /\
    files w' = (OUTPUT_FILENAME, total_df) :: files w /\
    written (trace w') = (OUTPUT_FILENAME, total_df) :: written (trace w) /\
    hd_error (trace w') =
      Some (Print (ProcessCompleted (List.length total_df) OUTPUT_FILENAME)).
Proof.
  intros Hin Hne. unfold Scraper.run_scraper_on.
  unfold bind at 1, print at 1, emit at 1.
  unfold bind at 1, print at 1, emit at 1.
  set (w0 := log (Print MayTakeMinutes) (log (Print StartingExtraction) w)) in *.
  destruct (scrape_cities_bounded cities 1 (List.length cities) [] w0)
    as (w' & n & E & (_ & F & T & _) & _).
  unfold bind at 1. rewrite E. cbn [app].
  assert (Hkept : In df (filter (fun df => negb (empty df))
                           (city_frames cities 1 (List.length cities) w0))).
  { apply filter_In. split; [exact Hin|]. now destruct df. }
  rewrite <- concat_nonempty.
  destruct (filter _ (city_frames cities 1 (List.length cities) w0))
    as [|df0 dfs]; [contradiction|].
  do 2 eexists. split; [reflexivity|].
  unfold bind, to_csv, print, emit, log. cbn.
  split; [reflexivity|].
  change (written (trace w') = written (trace w)) in T.
  change (files w' = files w) in F.
  unfold written in *. cbn. rewrite F, T. auto.
Qed.

(** X8. Whatever the network does, [run_scraper] comes to its end without
    raising, and has sent at most ten requests for each city. *)
Theorem run_scraper_bounded cities w :
  exists w',
    run_scraper_on cities w = (Ok tt, w') /\
    net w' = net w /\
    (sent w' <= sent w + 10 * List.length cities)%nat.
Proof.
  unfold Scraper.run_scraper_on.
  unfold bind at 1, print at 1, emit at 1.
  unfold bind at 1, print at 1, emit at 1.
  set (w0 := log (Print MayTakeMinutes) (log (Print StartingExtraction) w)).
  destruct (scrape_cities_bounded cities 1 (List.length cities) [] w0)
    as (w' & n & E & (N & _ & _ & S) & B).
  unfold bind at 1. rewrite E. cbn [app].
  destruct (filter _ (city_frames cities 1 (List.length cities) w0));
    eexists; (split; [reflexivity|]); cbn; rewrite N, S; cbn; split;
    (reflexivity || lia).
Qed.

End CollectorMore.

Lemma merged_rows_follow_the_weather_rows_witness :
  exists final_df w',
    get_historical_data (pandas := iso_pandas) "2016-01-05" "Warszawa"
      52.23 21.01 example_world = (Ok final_df, w') /\
    map time final_df =
      filter (fun d => existsb (String.eqb d) (map fst example_air_daily))
             (string_keys example_weather_rows).
Proof.
  eapply (merged_rows_follow_the_weather_rows (pandas := iso_pandas)
            "2016-01-05" "Warszawa" 52.23 21.01 example_world example_weather _
            example_air _ example_weather_rows example_air_daily).
  - vm_compute. reflexivity.
  - reflexivity.
  - vm_compute. reflexivity.
  - reflexivity.
  - reflexivity.
  - reflexivity.
Defined.

Definition example_hourly : Json :=
  Eval vm_compute in
    match getitem example_air "hourly" with
    | inr hourly => hourly
    | inl _ => JNull
    end.

Lemma resampling_covers_every_day_witness :
  In "2016-01-02" (map fst example_air_daily) /\
  NoDup (map fst example_air_daily).
Proof.
  eapply (resampling_covers_every_day (pandas := iso_pandas) example_hourly _ _
            example_air_daily (JStr "2016-01-01T03:00") (JStr "2016-01-03T12:00")
            _ _ 16802).
  - reflexivity.
  - reflexivity.
  - reflexivity.
  - cbn. tauto.
  - reflexivity.
  - cbn. tauto.
  - reflexivity.
  - vm_compute. split; discriminate.
Defined.

Lemma some_city_one_file_witness :
  exists w' total_df,
    total_df = List.concat
                 (city_frames (pandas := iso_pandas) "2016-01-05" [Warszawa] 1 1
                    (log (Print MayTakeMinutes)
                       (log (Print StartingExtraction) example_world))) /\
    run_scraper_on (pandas := iso_pandas) "2016-01-05" [Warszawa] example_world
      = (Ok tt, w') /\
    files w' = [(OUTPUT_FILENAME, total_df)] /\
    written (trace w') = [(OUTPUT_FILENAME, total_df)] /\
    hd_error (trace w') =
      Some (Print (ProcessCompleted (List.length total_df) OUTPUT_FILENAME)).
Proof.
  apply (some_city_one_file (pandas := iso_pandas) "2016-01-05" [Warszawa]
           example_world
           (map (merged_row "Warszawa")
              (pd_merge example_weather_rows example_air_daily))).
  - vm_compute. left. reflexivity.
  - discriminate.
Defined.

End Scraper.

Module Pipeline.

(** *** The input frame *)

(** The calendar fields of a [Timestamp] of the [time] column. *)
Record Timestamp : Type := mkTimestamp {
  year : Z;
  month : Z;
  day : Z
}.

(** [dt.dayofweek]: 0 is Monday; 1970-01-01 was a Thursday. *)
Definition dayofweek (t : Timestamp) : Z :=
  (days_from_civil (year t) (month t) (day t) + 3) mod 7.

Definition month_name (m : Z) : string :=
  nth (Z.to_nat (m - 1))
      ["January"; "February"; "March"; "April"; "May"; "June"; "July";
       "August"; "September"; "October"; "November"; "December"] "".

Definition day_name (d : Z) : string :=
  nth (Z.to_nat d)
      ["Monday"; "Tuesday"; "Wednesday"; "Thursday"; "Friday"; "Saturday";
       "Sunday"] "".

(** A row of the frame; [T] is what its [time] cell holds. *)
Record Row {T : Type} : Type := mkRow {
  time : T;
  temperature_2m_mean : float;
  wind_speed_10m_max : float;
  precipitation_sum : float;
  pm10 : float;
  pm2_5 : float;
  city : string
}.
Arguments Row T : clear implicits.
Arguments mkRow {T}.

(** After [pd.to_datetime] a [time] cell is a timestamp or [NaT]. *)
Definition RawFrame : Type := list (Row (option Timestamp)).
Definition Frame : Type := list (Row Timestamp).

Definition with_time {T U : Type} (t : U) (r : Row T) : Row U :=
  mkRow t (temperature_2m_mean r) (wind_speed_10m_max r) (precipitation_sum r)
        (pm10 r) (pm2_5 r) (city r).

(** Line 19, [df[df['time'].dt.year >= 2016]]; the year of [NaT] is NaN, which
    is not [>= 2016]. *)
Definition from_2016 (df : RawFrame) : Frame :=
  flat_map (fun r => match time r with
                     | Some t => if year t >=? 2016 then [with_time t r] else []
                     | None => []
                     end) df.

(** Lines 22-26. *)
Definition Year (r : Row Timestamp) : Z := year (time r).
Definition Month (r : Row Timestamp) : Z := month (time r).
Definition Month_Name (r : Row Timestamp) : string := month_name (Month r).
Definition Day_Name (r : Row Timestamp) : string := day_name (dayofweek (time r)).
Definition Day_of_Week (r : Row Timestamp) : Z := dayofweek (time r).

(** *** [groupby] *)

Section GroupBy.

Context {A K : Type}.
Variable eqb : K -> K -> bool.
Variable leb : K -> K -> bool.

(** The keys without repetitions, then in ascending order. *)
Fixpoint unique (ks : list K) : list K :=
  match ks with
  | [] => []
  | k :: rest => if existsb (eqb k) rest then unique rest else k :: unique rest
  end.

Fixpoint insert_key (k : K) (ks : list K) : list K :=
  match ks with
  | [] => [k]
  | k' :: rest => if leb k k' then k :: ks else k' :: insert_key k rest
  end.

Definition sorted_keys (ks : list K) : list K :=
  fold_right insert_key [] (unique ks).

(** [df.groupby(key)]: one group per distinct key, keys ascending, each
    group holding its rows in the order of the frame. *)
Definition groupby (key : A -> K) (rows : list A) : list (K * list A) :=
  map (fun k => (k, filter (fun r => eqb (key r) k) rows))
      (sorted_keys (map key rows)).

End GroupBy.

Definition pair_eqb {A B} (ea : A -> A -> bool) (eb : B -> B -> bool)
    (x y : A * B) : bool :=
  ea (fst x) (fst y) && eb (snd x) (snd y).

(** Lexicographic order on the pairs of a two-column grouping. *)
Definition pair_leb {A B} (ea la : A -> A -> bool) (lb : B -> B -> bool)
    (x y : A * B) : bool :=
  if ea (fst x) (fst y) then lb (snd x) (snd y) else la (fst x) (fst y).

(** [sort_values]: pandas sorts with quicksort, which fixes no order among
    equal keys; what is known of the result is that it is the frame
    reordered, and in order. *)
Class Sorting : Type := {
  sort_values : forall {A : Type}, (A -> A -> bool) -> list A -> list A;
  sort_values_perm :
    forall (A : Type) (leb : A -> A -> bool) (l : list A),
      Permutation (sort_values leb l) l;
  sort_values_sorted :
    forall (A : Type) (leb : A -> A -> bool) (l : list A),
      (forall a b, leb a b = true \/ leb b a = true) ->
      (forall a b c, leb a b = true -> leb b c = true -> leb a c = true) ->
      StronglySorted (fun a b => leb a b = true) (sort_values leb l)
}.

(** [round().astype(int)] on one cell: to the nearest integer, halves to
    the even one, then cast to [int64]; NaN and the infinities cannot be
    cast. *)
Definition round_half_even (m e : Z) : Z :=
  if 0 <=? e then m * 2 ^ e
  else
    let p := 2 ^ (- e) in
    let q := m / p in
    let r := m mod p in
    if 2 * r <? p then q
    else if 2 * r >? p then q + 1
    else if Z.even q then q else q + 1.

(** The cast of a float that is a whole number to [int64]: a value that
    does not fit becomes the smallest [int64], as the conversion of the
    processor leaves it. *)
Definition cast_int64 (n : Z) : Z :=
  if (int64_min <=? n) && (n <=? int64_max) then n else int64_min.

Definition round_astype_int (x : float) : Exn + Z :=
  match Prim2SF x with
  | S754_zero _ => inr 0
  | S754_finite s m e =>
      let n := round_half_even (Z.pos m) e in
      inr (cast_int64 (if s then - n else n))
  | S754_infinity _ => inl IntCastingNaNError
  | S754_nan => inl IntCastingNaNError
  end.

(** *** The summaries *)

Section Summaries.

Context {pandas : Scraper.Pandas} {sorting : Sorting}.

Notation mean := Scraper.mean.

Definition avg_pm10 {T K : Type} (g : K * list (Row T)) : K * float :=
  (fst g, mean (map pm10 (snd g))).

(** Lines 36-37. *)
Definition yearly_trend (df : Frame) : list (Z * float) :=
  map avg_pm10 (groupby Z.eqb Z.leb Year df).

(** Lines 42-44. *)
Definition monthly_trend (df : Frame) : list (Z * string * float) :=
  sort_values (fun a b => fst (fst a) <=? fst (fst b))
    (map avg_pm10
       (groupby (pair_eqb Z.eqb String.eqb) (pair_leb Z.eqb Z.leb String.leb)
                (fun r => (Month r, Month_Name r)) df)).

(** Line 49: the days above 50 of each city. *)
Definition smog_days (df : Frame) : list (string * nat) :=
  map (fun g => (fst g, List.length (snd g)))
      (groupby String.eqb String.leb city
               (filter (fun r => (50 <? pm10 r)%float) df)).

(** Line 50. *)
Definition city_stats (df : Frame) : list (string * nat) :=
  firstn 10 (sort_values (fun a b => (snd b <=? snd a)%nat) (smog_days df)).

(** Lines 59-61; [bins] is the new [Wind_Bin] column. *)
Definition wind_curve (bins : list Z) (df : Frame) : list (Z * float) :=
  filter (fun g => fst g <=? 60)
    (map (fun g => (fst g, mean (map (fun r => pm10 (snd r)) (snd g))))
       (groupby Z.eqb Z.leb fst (combine bins df))).

(** Lines 67-69; [bins] is the new [Temp_Bin] column. *)
Definition temp_curve (bins : list Z) (df : Frame) : list (Z * float) :=
  filter (fun g => (-20 <=? fst g) && (fst g <=? 30))
    (map (fun g => (fst g, mean (map (fun r => pm10 (snd r)) (snd g))))
       (groupby Z.eqb Z.leb fst (combine bins df))).

(** Lines 75-76. *)
Definition Rain_Condition (r : Row Timestamp) : string :=
  if (0.1 <? precipitation_sum r)%float then "Deszcz (Mokro)"
  else "Brak Deszczu (Sucho)".

Definition rain_effect (df : Frame) : list (string * float) :=
  map avg_pm10 (groupby String.eqb String.leb Rain_Condition df).

(** Lines 81-91. *)
Definition classify_scenario {T : Type} (row : Row T) : string :=
  let t := temperature_2m_mean row in
  let w := wind_speed_10m_max row in
  if (t <? 5)%float && (w <? 10)%float then "1. ZIMNO I BEZWIETRZNIE"
  else if (t <? 5)%float && (20 <? w)%float then "2. ZIMNO Z WIATREM"
  else if (15 <? t)%float then "3. LATO"
  else "4. INNE".

(** Lines 93-94: the groups of the [Scenario] column. *)
Definition scenario_groups (df : Frame) : list (string * list (Row Timestamp)) :=
  groupby String.eqb String.leb classify_scenario df.

(** Line 95. *)
Definition scenarios (df : Frame) : list (string * float) :=
  filter (fun g => negb (String.eqb (fst g) "4. INNE"))
         (map avg_pm10 (scenario_groups df)).

(** Lines 105-106. *)
Definition weekend_effect (df : Frame) : list (Z * string * float * string) :=
  map (fun g => (g, if fst (fst g) >=? 5 then "Weekend" else "Dzień Roboczy"))
      (map avg_pm10
         (groupby (pair_eqb Z.eqb String.eqb) (pair_leb Z.eqb Z.leb String.leb)
                  (fun r => (Day_of_Week r, Day_Name r)) df)).

(** Lines 111-119. *)
Definition get_newyear_label (row : Row Timestamp) : option string :=
  let m := Month row in
  let d := day (time row) in
  if (m =? 12) && (d =? 29) then Some "1. 29 Grudnia"
  else if (m =? 12) && (d =? 30) then Some "2. 30 Grudnia"
  else if (m =? 12) && (d =? 31) then Some "3. SYLWESTER"
  else if (m =? 1) && (d =? 1) then Some "4. NOWY ROK"
  else if (m =? 1) && (d =? 2) then Some "5. 2 Stycznia"
  else if (m =? 1) && (d =? 3) then Some "6. 3 Stycznia"
  else None.

(** Lines 121-122: [dropna] on the label, then the groups of the label. *)
Definition labelled (df : Frame) : list (string * Row Timestamp) :=
  flat_map (fun r => match get_newyear_label r with
                     | Some l => [(l, r)]
                     | None => []
                     end) df.

Definition new_year_groups (df : Frame)
  : list (string * list (string * Row Timestamp)) :=
  groupby String.eqb String.leb fst (labelled df).

Definition new_year_stats (df : Frame) : list (string * float) :=
  map (fun g => (fst g, mean (map (fun r => pm10 (snd r)) (snd g))))
      (new_year_groups df).

(** Lines 127-128. *)
Definition Sezon (r : Row Timestamp) : string :=
  if existsb (Z.eqb (Month r)) [10; 11; 12; 1; 2; 3] then "1. SEZON GRZEWCZY"
  else "2. POZA SEZONEM".

Definition season_stats (df : Frame) : list (string * float) :=
  map avg_pm10 (groupby String.eqb String.leb Sezon df).

(** *** The script *)

Inductive Cell : Type :=
| CInt (n : Z)
| CFloat (x : float)
| CStr (s : string).

Record Table : Type := mkTable {
  header : list string;
  body : list (list Cell)
}.

Inductive Line : Type :=
| DataLoaded (rows : nat)
| GeneratingPage3
| AllGenerated.

(** What a run has done so far, newest first. *)
Inductive Effect : Type :=
| Printed (l : Line)
| Saved (filename : string) (t : Table).

Definition Script : Type -> Type := M (list Effect).

Definition say (l : Line) : Script unit := fun s => (Ok tt, Printed l :: s).

Definition to_csv (filename : string) (t : Table) : Script unit :=
  fun s => (Ok tt, Saved filename t :: s).

Definition key_value {K : Type} (cell : K -> Cell) (g : K * float) : list Cell :=
  [cell (fst g); CFloat (snd g)].

Definition name_value (cell : Z -> Cell) (g : Z * string * float) : list Cell :=
  [cell (fst (fst g)); CStr (snd (fst g)); CFloat (snd g)].

(** The whole of [etl_pipeline.py]; [file] is what [read_csv] and
    [to_datetime] make of the input file, [None] when there is no file.
    On a frame without rows [df.apply(get_newyear_label, axis=1)] gives
    back a frame and not a column (the function raises on the row of NaN
    that pandas tries it on), so the assignment of line 121 raises
    [ValueError]; [classify_scenario] returns a label on that row, and line
    93 goes through. *)
Definition etl_pipeline (file : option RawFrame) : Script unit :=
  match file with
  | None => raise FileNotFoundError
  | Some raw =>
      let df := from_2016 raw in
      say (DataLoaded (List.length df)) ;;
      to_csv "pbi_trend_yearly.csv"
        (mkTable ["Year"; "Avg_PM10"] (map (key_value CInt) (yearly_trend df))) ;;
      to_csv "pbi_seasonality.csv"
        (mkTable ["Month_Num"; "Month_Name"; "Avg_PM10"]
           (map (name_value CInt) (monthly_trend df))) ;;
      to_csv "pbi_ranking_cities.csv"
        (mkTable ["city"; "Dni_Smogowe"]
           (map (fun c => [CStr (fst c); CInt (Z.of_nat (snd c))]) (city_stats df))) ;;
      Wind_Bin <- lift (Scraper.traverse
                          (fun r => round_astype_int (wind_speed_10m_max r)) df) ;;
      to_csv "pbi_page2_wind_curve.csv"
        (mkTable ["Wind_Speed_kmh"; "Avg_PM10"]
           (map (key_value CInt) (wind_curve Wind_Bin df))) ;;
      Temp_Bin <- lift (Scraper.traverse
                          (fun r => round_astype_int (temperature_2m_mean r)) df) ;;
      to_csv "pbi_page2_temp_curve.csv"
        (mkTable ["Temperature_C"; "Avg_PM10"]
           (map (key_value CInt) (temp_curve Temp_Bin df))) ;;
      to_csv "pbi_page2_rain_effect.csv"
        (mkTable ["Rain_Condition"; "pm10"] (map (key_value CStr) (rain_effect df))) ;;
      to_csv "pbi_page2_scenarios_clean.csv"
        (mkTable ["Scenario"; "pm10"] (map (key_value CStr) (scenarios df))) ;;
      say GeneratingPage3 ;;
      to_csv "pbi_page3_weekend.csv"
        (mkTable ["Day_of_Week"; "Day_Name"; "pm10"; "Typ_Dnia"]
           (map (fun g => name_value CInt (fst g) ++ [CStr (snd g)])
                (weekend_effect df))) ;;
      match df with
      | [] => raise ValueError
      | _ :: _ => ret tt
      end ;;
      to_csv "pbi_page3_newyear_ready.csv"
        (mkTable ["NewYear_Label"; "pm10"]
           (map (key_value CStr) (new_year_stats df))) ;;
      to_csv "pbi_page3_heating_season.csv"
        (mkTable ["Sezon"; "pm10"] (map (key_value CStr) (season_stats df))) ;;
      say AllGenerated
  end.

End Summaries.

(** *** The vocabulary of the statements, and concrete frames *)

(** December 29 to January 3. *)
Definition in_window (t : Timestamp) : Prop :=
  (month t = 12 /\ (day t = 29 \/ day t = 30 \/ day t = 31)) \/
  (month t = 1 /\ (day t = 1 \/ day t = 2 \/ day t = 3)).

(** The rows of the frame that [get_newyear_label] labels [l], in the
    order of the frame. *)
Definition rows_labelled (df : Frame) (l : string) : list (Row Timestamp) :=
  filter (fun r => match get_newyear_label r with
                   | Some l' => String.eqb l' l
                   | None => false
                   end) df.

(** The days of [city] with PM10 above 50. *)
Definition days_above_50 (df : Frame) (c : string) : nat :=
  List.length (filter (fun r => String.eqb (city r) c)
                      (filter (fun r => (50 <? pm10 r)%float) df)).

(** Whether [astype(int)] accepts the cell: neither NaN nor an infinity. *)
Definition castable (x : float) : bool :=
  match Prim2SF x with
  | S754_zero _ => true
  | S754_finite _ _ _ => true
  | S754_infinity _ => false
  | S754_nan => false
  end.

(** The names of the files a run has written, newest first. *)
Definition saved (s : list Effect) : list string :=
  flat_map (fun e => match e with Saved f _ => [f] | Printed _ => [] end) s.

(** Sorting by insertion, a [sort_values] that can be run. *)
Definition insertion_sort {A : Type} (leb : A -> A -> bool) (l : list A) : list A :=
  fold_right (insert_key leb) [] l.

Definition observed (y m d : Z) (temperature wind rain pm : float) (c : string)
  : Row Timestamp :=
  mkRow (mkTimestamp y m d) temperature wind rain pm 0 c.

(** A row as the input file has it. *)
Definition raw {T} (r : Row T) : Row (option T) := with_time (Some (time r)) r.

Definition winter_frame : Frame :=
  [ observed 2019 12 31 0 5 0 80 "Warszawa";
    observed 2020 1 1 0 25 0.5 120 "Warszawa";
    observed 2020 1 4 (-3) 4 0 60 "Kraków";
    observed 2020 7 1 20 25 0 15 "Kraków";
    observed 2020 10 10 10 15 0 30 "Gdynia" ].

(** The same with a row whose wind speed is beyond the [int64] range. *)
Definition gale_frame : Frame :=
  winter_frame ++ [observed 2021 2 1 2 1e19 0 30 "Gdańsk"].

(** Eleven cities with a day above 50, some with more than one. *)
Definition smog_cities : list string :=
  ["Warszawa"; "Kraków"; "Łódź"; "Wrocław"; "Poznań"; "Gdańsk"; "Szczecin";
   "Bydgoszcz"; "Lublin"; "Białystok"; "Katowice"].

Definition smog_frame : Frame :=
  map (observed 2020 1 10 0 5 0 75) smog_cities
  ++ [ observed 2020 1 11 0 5 0 90 "Kraków";
       observed 2020 1 12 0 5 0 51 "Kraków";
       observed 2020 1 11 0 5 0 50 "Lublin";
       observed 2020 1 11 0 5 0 nan "Lublin";
       observed 2020 1 11 0 5 0 64 "Katowice";
       observed 2020 1 11 0 5 0 20 "Zabrze" ].

(** *** Properties of [groupby] *)

Section GroupByFacts.

Context {A K : Type}.
Variable eqb : K -> K -> bool.
Variable leb : K -> K -> bool.
Hypothesis eqb_eq : forall a b, eqb a b = true <-> a = b.

Lemma in_unique ks x : In x (unique eqb ks) <-> In x ks.
Proof.
  induction ks as [|k rest IH]; cbn [unique]; [tauto|].
  destruct (existsb (eqb k) rest) eqn:E; cbn [In]; rewrite IH; [|tauto].
  apply existsb_exists in E. destruct E as (k' & Hin & Hk).
  apply eqb_eq in Hk. subst k'. intuition (subst; auto).
Qed.

Lemma NoDup_unique ks : NoDup (unique eqb ks).
Proof.
  induction ks as [|k rest IH]; cbn [unique]; [constructor|].
  destruct (existsb (eqb k) rest) eqn:E; [exact IH|].
  constructor; [|exact IH].
  rewrite in_unique. intros Hin.
  assert (existsb (eqb k) rest = true) as E'; [|congruence].
  apply existsb_exists. exists k. split; [exact Hin|]. now apply eqb_eq.
Qed.

Lemma insert_key_perm k ks : Permutation (insert_key leb k ks) (k :: ks).
Proof.
  induction ks as [|k' rest IH]; cbn [insert_key]; [reflexivity|].
  destruct (leb k k'); [reflexivity|].
  rewrite IH. apply perm_swap.
Qed.

Lemma sorted_keys_perm ks : Permutation (sorted_keys eqb leb ks) (unique eqb ks).
Proof.
  unfold sorted_keys.
  induction (unique eqb ks) as [|k rest IH]; cbn [fold_right]; [reflexivity|].
  rewrite insert_key_perm. now constructor.
Qed.

Lemma in_sorted_keys ks x : In x (sorted_keys eqb leb ks) <-> In x ks.
Proof.
  split; intros H.
  - apply in_unique. eapply Permutation_in; [apply sorted_keys_perm|exact H].
  - eapply Permutation_in; [symmetry; apply sorted_keys_perm|].
    now apply in_unique.
Qed.

Lemma NoDup_sorted_keys ks : NoDup (sorted_keys eqb leb ks).
Proof.
  eapply Permutation_NoDup; [symmetry; apply sorted_keys_perm|].
  apply NoDup_unique.
Qed.

Lemma groupby_keys (key : A -> K) rows :
  map fst (groupby eqb leb key rows) = sorted_keys eqb leb (map key rows).
Proof. unfold groupby. rewrite map_map. cbn. apply map_id. Qed.

(** A group is a key some row has, with all the rows that have it. *)
Lemma in_groupby (key : A -> K) rows k g :
  In (k, g) (groupby eqb leb key rows) <->
  In k (map key rows) /\ g = filter (fun r => eqb (key r) k) rows.
Proof.
  unfold groupby. rewrite in_map_iff. split.
  - intros (k' & E & Hin). inversion E; subst.
    apply (proj1 (in_sorted_keys _ _)) in Hin. split; [exact Hin|reflexivity].
  - intros (Hin & ->). exists k. split; [reflexivity|].
    now apply in_sorted_keys.
Qed.

(** Every row is in the group of its key, and in no other group. *)
Lemma groupby_row (key : A -> K) rows r :
  In r rows ->
  forall k g, In (k, g) (groupby eqb leb key rows) ->
              (In r g <-> k = key r).
Proof.
  intros Hr k g Hg. apply in_groupby in Hg. destruct Hg as (_ & ->).
  rewrite filter_In, eqb_eq. intuition congruence.
Qed.


End GroupByFacts.

(** *** Properties of the summaries *)

Section SummaryFacts.

Context {pandas : Scraper.Pandas} {sorting : Sorting}.

Lemma classify_scenario_labels {T : Type} (row : Row T) :
  In (classify_scenario row)
     ["1. ZIMNO I BEZWIETRZNIE"; "2. ZIMNO Z WIATREM"; "3. LATO"; "4. INNE"].
Proof.
  unfold classify_scenario.
  destruct (_ && _); [cbn; tauto|].
  destruct (_ && _); [cbn; tauto|].
  destruct (_ <? _)%float; cbn; tauto.
Qed.

Lemma scenarios_keys df :
  map fst (scenarios df) =
  filter (fun l => negb (String.eqb l "4. INNE"))
         (map fst (scenario_groups df)).
Proof.
  unfold scenarios.
  induction (scenario_groups df) as [|g gs IH]; [reflexivity|].
  cbn [map filter fst avg_pm10].
  destruct (negb (String.eqb (fst g) "4. INNE")); cbn [map fst]; now rewrite IH.
Qed.

(** C3. [classify_scenario] gives every row one of four labels, by the
    first rule that matches: cold and calm when the temperature is below 5
    and the wind below 10; else cold and windy when the temperature is below
    5 and the wind above 20; else summer when the temperature is above 15;
    else other. Temperature 0 with wind 5 is cold and calm, 0 with 25 cold
    and windy, 20 with 25 summer. The scenario table has a line for each of
    the first three labels that some row has, and none for other. *)
Theorem classify_scenario_first_match :
  (forall (T : Type) (row : Row T),
     let t := temperature_2m_mean row in
     let w := wind_speed_10m_max row in
     let cold_calm := ((t <? 5) && (w <? 10))%float in
     let cold_windy := ((t <? 5) && (20 <? w))%float in
     In (classify_scenario row)
        ["1. ZIMNO I BEZWIETRZNIE"; "2. ZIMNO Z WIATREM"; "3. LATO"; "4. INNE"] /\
     (cold_calm = true -> classify_scenario row = "1. ZIMNO I BEZWIETRZNIE") /\
     (cold_calm = false -> cold_windy = true ->
      classify_scenario row = "2. ZIMNO Z WIATREM") /\
     (cold_calm = false -> cold_windy = false -> (15 <? t)%float = true ->
      classify_scenario row = "3. LATO") /\
     (cold_calm = false -> cold_windy = false -> (15 <? t)%float = false ->
      classify_scenario row = "4. INNE")) /\
  (forall (T : Type) (time : T) rain pm10 pm2_5 city,
     classify_scenario (mkRow time 0 5 rain pm10 pm2_5 city)
       = "1. ZIMNO I BEZWIETRZNIE" /\
     classify_scenario (mkRow time 0 25 rain pm10 pm2_5 city)
       = "2. ZIMNO Z WIATREM" /\
     classify_scenario (mkRow time 20 25 rain pm10 pm2_5 city)
       = "3. LATO") /\
  (forall df : Frame,
     ~ In "4. INNE" (map fst (scenarios df)) /\
     forall row, In row df ->
                 classify_scenario row <> "4. INNE" ->
                 In (classify_scenario row) (map fst (scenarios df))).
Proof.
  split; [|split].
  - intros T row t w cold_calm cold_windy.
    split; [apply classify_scenario_labels|].
    unfold classify_scenario. fold t w. fold cold_calm cold_windy.
    repeat split; intros; repeat match goal with H : _ = _ |- _ => rewrite H end;
      reflexivity.
  - intros. repeat split.
  - intros df. rewrite scenarios_keys. split.
    + intros Hin. apply filter_In in Hin. destruct Hin as (_ & Hin).
      discriminate Hin.
    + intros row Hrow Hne. apply filter_In. split.
      * unfold scenario_groups. rewrite (groupby_keys String.eqb String.leb).
        apply (in_sorted_keys _ _ String.eqb_eq). now apply in_map.
      * apply negb_true_iff. now apply String.eqb_neq.
Qed.

(** **** The New Year window *)

Lemma get_newyear_label_window row :
  (exists l, get_newyear_label row = Some l) <-> in_window (time row).
Proof.
  unfold get_newyear_label, in_window, Month.
  destruct (Z.eqb_spec (month (time row)) 12) as [->|H12];
    destruct (Z.eqb_spec (month (time row)) 1) as [H1|H1];
    try rewrite H1; cbn [andb];
    destruct (Z.eqb_spec (day (time row)) 29);
    destruct (Z.eqb_spec (day (time row)) 30);
    destruct (Z.eqb_spec (day (time row)) 31);
    destruct (Z.eqb_spec (day (time row)) 1);
    destruct (Z.eqb_spec (day (time row)) 2);
    destruct (Z.eqb_spec (day (time row)) 3);
    split; intros H; try (eexists; reflexivity); try lia;
    destruct H as [l H]; discriminate H.
Qed.

Lemma in_labelled df l row :
  In (l, row) (labelled df) <-> In row df /\ get_newyear_label row = Some l.
Proof.
  unfold labelled. rewrite in_flat_map. split.
  - intros (r & Hr & Hin). destruct (get_newyear_label r) eqn:E; [|contradiction].
    destruct Hin as [Hin|[]]. inversion Hin; subst. auto.
  - intros (Hr & E). exists row. split; [exact Hr|]. rewrite E. now left.
Qed.

Lemma labelled_rows df l :
  map snd (filter (fun x => String.eqb (fst x) l) (labelled df))
    = rows_labelled df l.
Proof.
  unfold labelled, rows_labelled.
  induction df as [|r df IH]; [reflexivity|]. cbn [flat_map filter].
  rewrite filter_app, map_app, IH.
  destruct (get_newyear_label r) as [l'|]; [|reflexivity].
  cbn [filter fst]. destruct (String.eqb l' l); reflexivity.
Qed.

Lemma in_rows_labelled df l row :
  In row (rows_labelled df l) <-> In row df /\ get_newyear_label row = Some l.
Proof.
  unfold rows_labelled. rewrite filter_In. split.
  - intros (Hin & H). split; [exact Hin|].
    destruct (get_newyear_label row) as [l'|]; [|discriminate].
    apply String.eqb_eq in H. now subst.
  - intros (Hin & ->). split; [exact Hin|]. apply String.eqb_refl.
Qed.

(** The written table, line by line. *)
Lemma new_year_stats_lines df :
  new_year_stats df =
    map (fun l => (l, Scraper.mean (map pm10 (rows_labelled df l))))
        (sorted_keys String.eqb String.leb (map fst (labelled df))).
Proof.
  unfold new_year_stats, new_year_groups, groupby. rewrite map_map.
  apply map_ext. intros l. cbn [fst snd]. f_equal.
  rewrite <- labelled_rows, map_map. reflexivity.
Qed.

(** C6. The New Year summary has one line for each label that some row of
    the frame gets, and the value of the line is the mean PM10 of exactly
    the rows with that label. Only rows dated December 29 to January 3 get
    a label: a row dated 2020-01-04 gets none and is among the rows of no
    line; a row of the frame dated 2020-01-01 is among the rows of the line
    "4. NOWY ROK" (New Year's Day), which the summary then has. A run of
    the script that comes to its end has saved this summary of the filtered
    frame as pbi_page3_newyear_ready.csv. *)
Theorem new_year_window :
  (forall row, (exists l, get_newyear_label row = Some l) <->
               in_window (time row)) /\
  (forall df, NoDup (map fst (new_year_stats df))) /\
  (forall df l v,
     In (l, v) (new_year_stats df) <->
     rows_labelled df l <> [] /\ v = Scraper.mean (map pm10 (rows_labelled df l))) /\
  (forall df l row,
     In row (rows_labelled df l) <->
     In row df /\ in_window (time row) /\ get_newyear_label row = Some l) /\
  (forall row,
     time row = mkTimestamp 2020 1 4 ->
     get_newyear_label row = None /\
     forall df l, ~ In row (rows_labelled df l)) /\
  (forall df row,
     time row = mkTimestamp 2020 1 1 -> In row df ->
     In row (rows_labelled df "4. NOWY ROK") /\
     In ("4. NOWY ROK", Scraper.mean (map pm10 (rows_labelled df "4. NOWY ROK")))
        (new_year_stats df)) /\
  (forall raw s s',
     etl_pipeline (Some raw) s = (Ok tt, s') ->
     In (Saved "pbi_page3_newyear_ready.csv"
           (mkTable ["NewYear_Label"; "pm10"]
              (map (key_value CStr) (new_year_stats (from_2016 raw)))))
        s').
Proof.
  assert (Hkeys : forall df l,
             In l (sorted_keys String.eqb String.leb (map fst (labelled df))) <->
             rows_labelled df l <> []).
  { intros df l. rewrite (in_sorted_keys _ _ String.eqb_eq), in_map_iff. split.
    - intros ([l' r] & E & Hin). cbn in E. subst l'.
      apply in_labelled in Hin.
      intros Hnil. apply (proj2 (in_rows_labelled df l r)) in Hin.
      rewrite Hnil in Hin. contradiction.
    - intros Hne. destruct (rows_labelled df l) as [|r rs] eqn:E;
        [now contradiction Hne|].
      assert (Hr : In r (rows_labelled df l)) by (rewrite E; now left).
      apply in_rows_labelled in Hr. exists (l, r). split; [reflexivity|].
      now apply in_labelled. }
  assert (Hlines : forall df l v,
             In (l, v) (new_year_stats df) <->
             rows_labelled df l <> [] /\
             v = Scraper.mean (map pm10 (rows_labelled df l))).
  { intros df l v. rewrite new_year_stats_lines, in_map_iff. split.
    - intros (l' & E & Hin). inversion E; subst.
      split; [now apply Hkeys|reflexivity].
    - intros (Hne & ->). exists l. split; [reflexivity|now apply Hkeys]. }
  split; [|split; [|split; [|split; [|split; [|split]]]]].
  - exact get_newyear_label_window.
  - intros df. rewrite new_year_stats_lines, map_map. cbn [fst].
    rewrite map_id. apply (NoDup_sorted_keys _ _ String.eqb_eq).
  - exact Hlines.
  - intros df l row. rewrite in_rows_labelled. split.
    + intros (Hin & Hl). split; [exact Hin|]. split; [|exact Hl].
      apply get_newyear_label_window. eauto.
    + tauto.
  - intros row Ht.
    assert (Hnone : get_newyear_label row = None)
      by (unfold get_newyear_label, Month; rewrite Ht; reflexivity).
    split; [exact Hnone|].
    intros df l Hin. apply in_rows_labelled in Hin. destruct Hin as (_ & Hl).
    congruence.
  - intros df row Ht Hin.
    assert (Hl : get_newyear_label row = Some "4. NOWY ROK")
      by (unfold get_newyear_label, Month; rewrite Ht; reflexivity).
    assert (Hrow : In row (rows_labelled df "4. NOWY ROK"))
      by (apply in_rows_labelled; auto).
    split; [exact Hrow|]. apply Hlines. split; [|reflexivity].
    intros Hnil. rewrite Hnil in Hrow. contradiction.
  - intros raw s s' H. unfold etl_pipeline, bind, say, to_csv, lift in H.
    destruct (Scraper.traverse
                (fun r => round_astype_int (wind_speed_10m_max r))
                (from_2016 raw)) as [e|wind]; [discriminate H|].
    destruct (Scraper.traverse
                (fun r => round_astype_int (temperature_2m_mean r))
                (from_2016 raw)) as [e|temp]; [discriminate H|].
    destruct (from_2016 raw) as [|r df] eqn:E; [discriminate H|].
    cbv beta iota delta [ret] in H. inversion H; subst s'.
    right. right. now left.
Qed.

(** **** The year filter *)

Lemma in_from_2016 (raw : RawFrame) (row : Row Timestamp) :
  In row (from_2016 raw) <->
  exists r, In r raw /\ time r = Some (time row) /\ 2016 <= year (time row) /\
            row = with_time (time row) r.
Proof.
  unfold from_2016. rewrite in_flat_map. split.
  - intros (r & Hr & Hin). destruct (time r) as [t|] eqn:E; [|contradiction].
    destruct (Z.geb_spec (year t) 2016) as [Hy|Hy]; [|contradiction].
    destruct Hin as [<-|[]]. exists r. cbn. auto.
  - intros (r & Hr & E & Hy & ->). exists r. split; [exact Hr|].
    rewrite E. cbn. destruct (Z.geb_spec (year (time row)) 2016); [|lia].
    now left.
Qed.

Lemma from_2016_app raw1 raw2 :
  from_2016 (raw1 ++ raw2) = from_2016 raw1 ++ from_2016 raw2.
Proof. apply flat_map_app. Qed.


(** **** The ranking of the cities *)

Lemma in_smog_days df c n :
  In (c, n) (smog_days df) <-> (0 < n)%nat /\ n = days_above_50 df c.
Proof.
  unfold smog_days, days_above_50. rewrite in_map_iff. split.
  - intros ([c' g] & E & Hg). cbn in E. inversion E; subst. clear E.
    apply (in_groupby _ _ String.eqb_eq) in Hg. destruct Hg as (Hc & ->).
    split; [|reflexivity].
    apply in_map_iff in Hc. destruct Hc as (r & Hr & Hin).
    assert (Hin' : In r (filter (fun r => String.eqb (city r) c)
                           (filter (fun r => (50 <? pm10 r)%float) df))).
    { apply filter_In. split; [exact Hin|]. now apply String.eqb_eq. }
    destruct (filter _ (filter _ df)); [contradiction|cbn; lia].
  - intros (Hpos & ->).
    exists (c, filter (fun r => String.eqb (city r) c)
                 (filter (fun r => (50 <? pm10 r)%float) df)).
    split; [reflexivity|].
    apply (in_groupby _ _ String.eqb_eq). split; [|reflexivity].
    destruct (filter (fun r => String.eqb (city r) c) _) as [|r rs] eqn:E;
      [cbn in Hpos; lia|].
    assert (Hin : In r (r :: rs)) by now left.
    rewrite <- E in Hin. apply filter_In in Hin. destruct Hin as (Hin & Hc).
    apply String.eqb_eq in Hc. subst c. now apply in_map.
Qed.

Lemma NoDup_smog_days df : NoDup (map fst (smog_days df)).
Proof.
  unfold smog_days. rewrite map_map. cbn [fst].
  change (fun x : string * list (Row Timestamp) => fst x) with
    (@fst string (list (Row Timestamp))).
  rewrite (groupby_keys String.eqb String.leb).
  apply (NoDup_sorted_keys _ _ String.eqb_eq).
Qed.

Lemma in_firstn {A} (x : A) n l : In x (firstn n l) -> In x l.
Proof.
  intros H. rewrite <- (firstn_skipn n l). apply in_or_app. now left.
Qed.

Lemma StronglySorted_firstn {A} (R : A -> A -> Prop) n l :
  StronglySorted R l -> StronglySorted R (firstn n l).
Proof.
  intros H. revert n. induction H as [|a l Hl IH Ha]; intros [|n]; cbn;
    try constructor.
  - apply IH.
  - rewrite Forall_forall in *. intros x Hx. apply Ha.
    eapply in_firstn; eauto.
Qed.

Lemma StronglySorted_app_inv {A} (R : A -> A -> Prop) l1 l2 :
  StronglySorted R (l1 ++ l2) ->
  forall x y, In x l1 -> In y l2 -> R x y.
Proof.
  induction l1 as [|a l1 IH]; intros H x y Hx Hy; [contradiction|].
  cbn in H. inversion H as [|? ? Hrest Ha]; subst.
  destruct Hx as [->|Hx]; [|eauto].
  rewrite Forall_forall in Ha. apply Ha, in_or_app. now right.
Qed.

(** C7. The ranking counts for each city its days with PM10 above 50.
    When at least 11 cities have such a day, the ranking has exactly 10
    lines, in descending order of the count, each a different city with
    its count, and no city left out has more days than a city listed. *)
Theorem city_stats_top_10 (df : Frame) (cities : list string) :
  NoDup cities ->
  (11 <= List.length cities)%nat ->
  (forall c, In c cities -> (0 < days_above_50 df c)%nat) ->
  List.length (city_stats df) = 10%nat /\
  StronglySorted (fun a b => (snd b <= snd a)%nat) (city_stats df) /\
  NoDup (map fst (city_stats df)) /\
  (forall c n, In (c, n) (city_stats df) ->
               (0 < n)%nat /\ n = days_above_50 df c) /\
  (forall c, ~ In c (map fst (city_stats df)) ->
             forall c' n', In (c', n') (city_stats df) ->
                           (days_above_50 df c <= n')%nat).
Proof.
  intros Hnd Hlen Hpos. unfold city_stats.
  set (leb := fun a b : string * nat => (snd b <=? snd a)%nat).
  set (sorted := sort_values leb (smog_days df)).
  assert (Hperm : Permutation sorted (smog_days df))
    by apply sort_values_perm.
  assert (Hsorted : StronglySorted (fun a b => (snd b <= snd a)%nat) sorted).
  { assert (H : StronglySorted (fun a b => leb a b = true) sorted).
    { apply sort_values_sorted; unfold leb.
      - intros a b. rewrite !Nat.leb_le. lia.
      - intros a b c. rewrite !Nat.leb_le. lia. }
    clearbody sorted. clear Hperm.
    induction H as [|a l _ IH Ha]; constructor; [exact IH|].
    eapply Forall_impl; [|exact Ha]. intros b. unfold leb. apply Nat.leb_le. }
  assert (Hmany : (11 <= List.length sorted)%nat).
  { rewrite (Permutation_length Hperm), <- (length_map fst).
    etransitivity; [exact Hlen|].
    apply NoDup_incl_length; [exact Hnd|].
    intros c Hc. apply in_map_iff.
    exists (c, days_above_50 df c). split; [reflexivity|].
    apply in_smog_days. auto. }
  assert (Hsub : forall x, In x (firstn 10 sorted) -> In x (smog_days df)).
  { intros x Hx. eapply Permutation_in; [exact Hperm|].
    eapply in_firstn; eauto. }
  split; [|split; [|split; [|split]]].
  - apply firstn_length_le. lia.
  - now apply StronglySorted_firstn.
  - assert (H : NoDup (map fst sorted)).
    { eapply Permutation_NoDup; [|apply (NoDup_smog_days df)].
      symmetry. now apply Permutation_map. }
    rewrite <- (firstn_skipn 10 sorted), map_app in H.
    eapply NoDup_app_remove_r; exact H.
  - intros c n Hin. apply in_smog_days. auto.
  - intros c Hout c' n' Hin.
    destruct (Nat.eq_dec (days_above_50 df c) 0) as [->|Hn]; [lia|].
    assert (Hc : In (c, days_above_50 df c) sorted).
    { eapply Permutation_in; [symmetry; exact Hperm|].
      apply in_smog_days. split; [lia|reflexivity]. }
    rewrite <- (firstn_skipn 10 sorted) in Hc, Hsorted.
    apply in_app_or in Hc. destruct Hc as [Hc|Hc].
    + exfalso. apply Hout. apply in_map_iff. exists (c, days_above_50 df c). auto.
    + apply (StronglySorted_app_inv _ _ _ Hsorted _ _ Hin Hc).
Qed.

End SummaryFacts.

(** *** A concrete [sort_values] and concrete runs *)

Lemma insertion_sort_perm (A : Type) (leb : A -> A -> bool) (l : list A) :
  Permutation (insertion_sort leb l) l.
Proof.
  induction l as [|x l IH]; cbn; [reflexivity|].
  rewrite insert_key_perm. now constructor.
Qed.

Lemma insert_key_sorted (A : Type) (leb : A -> A -> bool) (x : A) (l : list A) :
  (forall a b, leb a b = true \/ leb b a = true) ->
  (forall a b c, leb a b = true -> leb b c = true -> leb a c = true) ->
  StronglySorted (fun a b => leb a b = true) l ->
  StronglySorted (fun a b => leb a b = true) (insert_key leb x l).
Proof.
  intros Htotal Htrans H.
  induction H as [|y l Hl IH Hy]; cbn [insert_key].
  - repeat constructor.
  - destruct (leb x y) eqn:E.
    + constructor; [now constructor|]. constructor; [exact E|].
      eapply Forall_impl; [|exact Hy]. intros z Hz. cbn in Hz. eauto.
    + constructor; [exact IH|].
      assert (Hyx : leb y x = true) by (destruct (Htotal x y); congruence).
      rewrite Forall_forall in *. intros z Hz.
      eapply Permutation_in in Hz; [|apply insert_key_perm].
      destruct Hz as [<-|Hz]; auto.
Qed.

Lemma insertion_sort_sorted (A : Type) (leb : A -> A -> bool) (l : list A) :
  (forall a b, leb a b = true \/ leb b a = true) ->
  (forall a b c, leb a b = true -> leb b c = true -> leb a c = true) ->
  StronglySorted (fun a b => leb a b = true) (insertion_sort leb l).
Proof.
  intros Htotal Htrans. induction l as [|x l IH]; cbn; [constructor|].
  now apply insert_key_sorted.
Qed.

Definition insertion_sorting : Sorting := {|
  sort_values := @insertion_sort;
  sort_values_perm := insertion_sort_perm;
  sort_values_sorted := insertion_sort_sorted
|}.

Example winter_scenarios :
  map classify_scenario winter_frame =
    ["1. ZIMNO I BEZWIETRZNIE"; "2. ZIMNO Z WIATREM"; "1. ZIMNO I BEZWIETRZNIE";
     "3. LATO"; "4. INNE"] /\
  map fst (scenarios (pandas := Scraper.iso_pandas) winter_frame) =
    ["1. ZIMNO I BEZWIETRZNIE"; "2. ZIMNO Z WIATREM"; "3. LATO"].
Proof. split; reflexivity. Qed.

Example winter_new_year :
  match new_year_stats (pandas := Scraper.iso_pandas) winter_frame with
  | [(a, x); (b, y)] =>
      a = "3. SYLWESTER" /\ PrimFloat.eqb x 80 = true /\
      b = "4. NOWY ROK" /\ PrimFloat.eqb y 120 = true
  | _ => False
  end.
Proof. vm_compute. auto. Qed.

(** The script runs to its end on a frame without gaps, and stops at the
    wind bins, three files written, when a wind speed is missing. *)
Example winter_run :
  let run := etl_pipeline (pandas := Scraper.iso_pandas)
               (sorting := insertion_sorting) (Some (map raw winter_frame)) [] in
  fst run = Ok tt /\
  List.length (filter (fun e => match e with Saved _ _ => true | _ => false end)
                      (snd run)) = 10%nat.
Proof. vm_compute. split; reflexivity. Qed.

Example gap_run :
  let run := etl_pipeline (pandas := Scraper.iso_pandas)
               (sorting := insertion_sorting)
               (Some (raw (observed 2020 1 2 1 nan 0 40 "Radom")
                        :: map raw winter_frame)) [] in
  fst run = Raise IntCastingNaNError /\
  map (fun e => match e with Saved f _ => f | Printed _ => "" end) (snd run) =
    ["pbi_ranking_cities.csv"; "pbi_seasonality.csv"; "pbi_trend_yearly.csv"; ""].
Proof. vm_compute. split; reflexivity. Qed.

Lemma classify_scenario_first_match_witness :
  classify_scenario (observed 2019 12 31 0 5 0 80 "Warszawa")
    = "1. ZIMNO I BEZWIETRZNIE" /\
  classify_scenario (observed 2020 1 1 0 25 0.5 120 "Warszawa")
    = "2. ZIMNO Z WIATREM" /\
  classify_scenario (observed 2020 7 1 20 25 0 15 "Kraków") = "3. LATO" /\
  classify_scenario (observed 2020 10 10 10 15 0 30 "Gdynia") = "4. INNE" /\
  ~ In "4. INNE" (map fst (scenarios (pandas := Scraper.iso_pandas) winter_frame)) /\
  In "3. LATO" (map fst (scenarios (pandas := Scraper.iso_pandas) winter_frame)).
Proof.
  destruct (classify_scenario_first_match (pandas := Scraper.iso_pandas))
    as (Hrules & _ & Htable).
  destruct (Htable winter_frame) as (Hother & Hkept).
  pose proof (Hrules _ (observed 2019 12 31 0 5 0 80 "Warszawa")) as H1.
  pose proof (Hrules _ (observed 2020 1 1 0 25 0.5 120 "Warszawa")) as H2.
  pose proof (Hrules _ (observed 2020 7 1 20 25 0 15 "Kraków")) as H3.
  pose proof (Hrules _ (observed 2020 10 10 10 15 0 30 "Gdynia")) as H4.
  cbv zeta in H1, H2, H3, H4.
  destruct H1 as (_ & H1 & _), H2 as (_ & _ & H2 & _),
           H3 as (_ & _ & _ & H3 & _), H4 as (_ & _ & _ & _ & H4).
  split; [apply H1; reflexivity|].
  split; [apply H2; reflexivity|].
  split; [apply H3; reflexivity|].
  split; [apply H4; reflexivity|].
  split; [exact Hother|].
  apply (Hkept (observed 2020 7 1 20 25 0 15 "Kraków")).
  - cbn. tauto.
  - discriminate.
Defined.

Lemma new_year_window_witness :
  get_newyear_label (observed 2020 1 4 (-3) 4 0 60 "Kraków") = None /\
  ~ In (observed 2020 1 4 (-3) 4 0 60 "Kraków")
       (rows_labelled winter_frame "4. NOWY ROK") /\
  In (observed 2020 1 1 0 25 0.5 120 "Warszawa")
     (rows_labelled winter_frame "4. NOWY ROK") /\
  In ("4. NOWY ROK",
      Scraper.mean (Pandas := Scraper.iso_pandas)
        (map pm10 (rows_labelled winter_frame "4. NOWY ROK")))
     (new_year_stats (pandas := Scraper.iso_pandas) winter_frame) /\
  ~ In ("5. 2 Stycznia",
        Scraper.mean (Pandas := Scraper.iso_pandas)
          (map pm10 (rows_labelled winter_frame "5. 2 Stycznia")))
       (new_year_stats (pandas := Scraper.iso_pandas) winter_frame).
Proof.
  destruct (new_year_window (pandas := Scraper.iso_pandas)
              (sorting := insertion_sorting))
    as (_ & _ & Hlines & _ & Hjan4 & Hjan1 & _).
  destruct (Hjan4 (observed 2020 1 4 (-3) 4 0 60 "Kraków") eq_refl)
    as (Hnone & Hout).
  destruct (Hjan1 winter_frame (observed 2020 1 1 0 25 0.5 120 "Warszawa")
              eq_refl) as (Hrow & Hline); [cbn; tauto|].
  split; [exact Hnone|]. split; [apply Hout|]. split; [exact Hrow|].
  split; [exact Hline|].
  intros Hin. apply Hlines in Hin. destruct Hin as (Hne & _).
  now apply Hne.
Defined.


Example smog_ranking :
  city_stats (sorting := insertion_sorting) smog_frame =
    [("Kraków", 3); ("Katowice", 2); ("Białystok", 1); ("Bydgoszcz", 1);
     ("Gdańsk", 1); ("Lublin", 1); ("Poznań", 1); ("Szczecin", 1);
     ("Warszawa", 1); ("Wrocław", 1)]%nat.
Proof. vm_compute. reflexivity. Qed.

Lemma city_stats_top_10_witness :
  List.length (city_stats (sorting := insertion_sorting) smog_frame) = 10%nat /\
  StronglySorted (fun a b => (snd b <= snd a)%nat)
    (city_stats (sorting := insertion_sorting) smog_frame) /\
  NoDup (map fst (city_stats (sorting := insertion_sorting) smog_frame)) /\
  (forall c n, In (c, n) (city_stats (sorting := insertion_sorting) smog_frame) ->
               (0 < n)%nat /\ n = days_above_50 smog_frame c) /\
  (forall c, ~ In c (map fst (city_stats (sorting := insertion_sorting) smog_frame)) ->
             forall c' n',
               In (c', n') (city_stats (sorting := insertion_sorting) smog_frame) ->
               (days_above_50 smog_frame c <= n')%nat).
Proof.
  apply (city_stats_top_10 (sorting := insertion_sorting) smog_frame smog_cities).
  - repeat constructor; cbn; intuition discriminate.
  - cbn. lia.
  - intros c Hc. cbn in Hc.
    repeat (destruct Hc as [<-|Hc]; [vm_compute; lia|]). contradiction.
Defined.

(** *** More on the script *)

Lemma round_astype_int_castable x :
  castable x = true -> exists n, round_astype_int x = inr n.
Proof.
  unfold castable, round_astype_int.
  destruct (Prim2SF x); try discriminate; eauto.
Qed.

Lemma round_astype_int_not_castable x :
  castable x = false -> round_astype_int x = inl IntCastingNaNError.
Proof.
  unfold castable, round_astype_int.
  destruct (Prim2SF x); try discriminate; reflexivity.
Qed.

Lemma traverse_succeeds {A B} (f : A -> Exn + B) xs :
  Forall (fun x => exists y, f x = inr y) xs ->
  exists ys, Scraper.traverse f xs = inr ys.
Proof.
  induction 1 as [|x xs (y & Hy) _ (ys & IH)]; cbn; [eauto|].
  rewrite Hy, IH. eauto.
Qed.

Lemma traverse_fails {A B} (f : A -> Exn + B) (e0 : Exn) xs :
  (forall x e, f x = inl e -> e = e0) ->
  Exists (fun x => exists e, f x = inl e) xs ->
  Scraper.traverse f xs = inl e0.
Proof.
  intros Hf. induction 1 as [x xs (e & He)|x xs _ IH]; cbn.
  - rewrite He. f_equal. eauto.
  - destruct (f x) as [e|y] eqn:E; [f_equal; eauto|]. now rewrite IH.
Qed.

Lemma round_astype_int_error x e :
  round_astype_int x = inl e -> e = IntCastingNaNError.
Proof.
  unfold round_astype_int. destruct (Prim2SF x); congruence.
Qed.

Section ScriptFacts.

Context {pandas : Scraper.Pandas} {sorting : Sorting}.

Lemma traverse_nil {A B} (f : A -> Exn + B) : Scraper.traverse f [] = inr [].
Proof. reflexivity. Qed.

(** X9. On a frame with a row from 2016 on, whose kept rows all have a wind
    speed and a temperature that are numbers, the script runs to its end
    and writes its ten files, in this order. On a frame with no row from
    2016 on it writes the first eight and raises [ValueError] at the New
    Year labels. *)
Theorem etl_pipeline_writes_ten_files (raw old : RawFrame) (s : list Effect) :
  from_2016 raw <> [] ->
  Forall (fun r => castable (wind_speed_10m_max r) = true /\
                   castable (temperature_2m_mean r) = true) (from_2016 raw) ->
  from_2016 old = [] ->
  (exists s',
     etl_pipeline (Some raw) s = (Ok tt, s') /\
     rev (saved s') =
       rev (saved s) ++
       ["pbi_trend_yearly.csv"; "pbi_seasonality.csv"; "pbi_ranking_cities.csv";
        "pbi_page2_wind_curve.csv"; "pbi_page2_temp_curve.csv";
        "pbi_page2_rain_effect.csv"; "pbi_page2_scenarios_clean.csv";
        "pbi_page3_weekend.csv"; "pbi_page3_newyear_ready.csv";
        "pbi_page3_heating_season.csv"]) /\
  (exists s',
     etl_pipeline (Some old) s = (Raise ValueError, s') /\
     rev (saved s') =
       rev (saved s) ++
       ["pbi_trend_yearly.csv"; "pbi_seasonality.csv"; "pbi_ranking_cities.csv";
        "pbi_page2_wind_curve.csv"; "pbi_page2_temp_curve.csv";
        "pbi_page2_rain_effect.csv"; "pbi_page2_scenarios_clean.csv";
        "pbi_page3_weekend.csv"]).
Proof.
  intros Hrows H Hold. split.
  - destruct (traverse_succeeds
                (fun r => round_astype_int (wind_speed_10m_max r))
                (from_2016 raw)) as (wind & Ew).
    { eapply Forall_impl; [|exact H]. intros r (Hw & _).
      now apply round_astype_int_castable. }
    destruct (traverse_succeeds
                (fun r => round_astype_int (temperature_2m_mean r))
                (from_2016 raw)) as (temp & Et).
    { eapply Forall_impl; [|exact H]. intros r (_ & Ht).
      now apply round_astype_int_castable. }
    unfold etl_pipeline, bind, say, to_csv, lift. rewrite Ew, Et.
    destruct (from_2016 raw) as [|r df]; [contradiction|].
    eexists. split; [reflexivity|].
    cbn. rewrite <- !app_assoc. reflexivity.
  - unfold etl_pipeline, bind, say, to_csv, lift. rewrite Hold, !traverse_nil.
    eexists. split; [reflexivity|].
    cbn. rewrite <- !app_assoc. reflexivity.
Qed.

(** X10. When a kept row has a wind speed that is NaN or an infinity, the
    script raises at the wind bins: the yearly trend, the seasonality and
    the ranking are written, and no other file. *)
Theorem etl_pipeline_stops_at_the_wind_bins (raw : RawFrame) (s : list Effect) :
  Exists (fun r => castable (wind_speed_10m_max r) = false) (from_2016 raw) ->
  exists s',
    etl_pipeline (Some raw) s = (Raise IntCastingNaNError, s') /\
    rev (saved s') =
      rev (saved s) ++
      ["pbi_trend_yearly.csv"; "pbi_seasonality.csv"; "pbi_ranking_cities.csv"].
Proof.
  intros H.
  assert (Ew : Scraper.traverse (fun r => round_astype_int (wind_speed_10m_max r))
                 (from_2016 raw) = inl IntCastingNaNError).
  { apply traverse_fails.
    - intros r e. apply round_astype_int_error.
    - eapply Exists_impl; [|exact H]. intros r Hr.
      eexists. now apply round_astype_int_not_castable. }
  unfold etl_pipeline, bind, say, to_csv, lift. rewrite Ew.
  eexists. split; [reflexivity|].
  cbn. rewrite <- !app_assoc. reflexivity.
Qed.

(** X11. When the wind speeds are numbers and a kept row has a temperature
    that is NaN or an infinity, the script raises at the temperature bins,
    after the wind curve: four files are written. *)
Theorem etl_pipeline_stops_at_the_temperature_bins (raw : RawFrame)
    (s : list Effect) :
  Forall (fun r => castable (wind_speed_10m_max r) = true) (from_2016 raw) ->
  Exists (fun r => castable (temperature_2m_mean r) = false) (from_2016 raw) ->
  exists s',
    etl_pipeline (Some raw) s = (Raise IntCastingNaNError, s') /\
    rev (saved s') =
      rev (saved s) ++
      ["pbi_trend_yearly.csv"; "pbi_seasonality.csv"; "pbi_ranking_cities.csv";
       "pbi_page2_wind_curve.csv"].
Proof.
  intros Hw Ht.
  destruct (traverse_succeeds (fun r => round_astype_int (wind_speed_10m_max r))
              (from_2016 raw)) as (wind & Ew).
  { eapply Forall_impl; [|exact Hw]. intros r Hr.
    now apply round_astype_int_castable. }
  assert (Et : Scraper.traverse (fun r => round_astype_int (temperature_2m_mean r))
                 (from_2016 raw) = inl IntCastingNaNError).
  { apply traverse_fails.
    - intros r e. apply round_astype_int_error.
    - eapply Exists_impl; [|exact Ht]. intros r Hr.
      eexists. now apply round_astype_int_not_castable. }
  unfold etl_pipeline, bind, say, to_csv, lift. rewrite Ew, Et.
  eexists. split; [reflexivity|].
  cbn. rewrite <- !app_assoc. reflexivity.
Qed.

End ScriptFacts.

Lemma etl_pipeline_writes_ten_files_witness :
  (exists s',
     etl_pipeline (pandas := Scraper.iso_pandas) (sorting := insertion_sorting)
       (Some (map raw winter_frame)) [] = (Ok tt, s') /\
     rev (saved s') =
       [] ++
       ["pbi_trend_yearly.csv"; "pbi_seasonality.csv"; "pbi_ranking_cities.csv";
        "pbi_page2_wind_curve.csv"; "pbi_page2_temp_curve.csv";
        "pbi_page2_rain_effect.csv"; "pbi_page2_scenarios_clean.csv";
        "pbi_page3_weekend.csv"; "pbi_page3_newyear_ready.csv";
        "pbi_page3_heating_season.csv"]) /\
  (exists s',
     etl_pipeline (pandas := Scraper.iso_pandas) (sorting := insertion_sorting)
       (Some [raw (observed 2015 12 31 (-5) 3 0 150 "Zabrze")]) []
     = (Raise ValueError, s') /\
     rev (saved s') =
       [] ++
       ["pbi_trend_yearly.csv"; "pbi_seasonality.csv"; "pbi_ranking_cities.csv";
        "pbi_page2_wind_curve.csv"; "pbi_page2_temp_curve.csv";
        "pbi_page2_rain_effect.csv"; "pbi_page2_scenarios_clean.csv";
        "pbi_page3_weekend.csv"]).
Proof.
  apply (etl_pipeline_writes_ten_files (pandas := Scraper.iso_pandas)
           (sorting := insertion_sorting) (map raw winter_frame)
           [raw (observed 2015 12 31 (-5) 3 0 150 "Zabrze")] []).
  - discriminate.
  - repeat constructor.
  - reflexivity.
Defined.

Lemma etl_pipeline_stops_at_the_wind_bins_witness :
  exists s',
    etl_pipeline (pandas := Scraper.iso_pandas) (sorting := insertion_sorting)
      (Some (raw (observed 2020 1 2 1 nan 0 40 "Radom") :: map raw winter_frame)) []
    = (Raise IntCastingNaNError, s') /\
    rev (saved s') =
      [] ++
      ["pbi_trend_yearly.csv"; "pbi_seasonality.csv"; "pbi_ranking_cities.csv"].
Proof.
  apply (etl_pipeline_stops_at_the_wind_bins (pandas := Scraper.iso_pandas)
           (sorting := insertion_sorting)
           (raw (observed 2020 1 2 1 nan 0 40 "Radom") :: map raw winter_frame) []).
  left. reflexivity.
Defined.

Lemma etl_pipeline_stops_at_the_temperature_bins_witness :
  exists s',
    etl_pipeline (pandas := Scraper.iso_pandas) (sorting := insertion_sorting)
      (Some (raw (observed 2020 1 2 nan 7 0 40 "Radom") :: map raw winter_frame)) []
    = (Raise IntCastingNaNError, s') /\
    rev (saved s') =
      [] ++
      ["pbi_trend_yearly.csv"; "pbi_seasonality.csv"; "pbi_ranking_cities.csv";
       "pbi_page2_wind_curve.csv"].
Proof.
  apply (etl_pipeline_stops_at_the_temperature_bins (pandas := Scraper.iso_pandas)
           (sorting := insertion_sorting)
           (raw (observed 2020 1 2 nan 7 0 40 "Radom") :: map raw winter_frame) []).
  - repeat constructor.
  - left. reflexivity.
Defined.

(** *** More on the summaries *)

Lemma pair_eqb_eq (a b : Z * string) :
  pair_eqb Z.eqb String.eqb a b = true <-> a = b.
Proof.
  destruct a as [x u], b as [y v]. unfold pair_eqb. cbn.
  rewrite andb_true_iff, Z.eqb_eq, String.eqb_eq. split.
  - intros (-> & ->). reflexivity.
  - intros E. inversion E. auto.
Qed.

Lemma dayofweek_range t : 0 <= dayofweek t <= 6.
Proof.
  unfold dayofweek.
  pose proof (Z.mod_pos_bound
                (days_from_civil (year t) (month t) (day t) + 3) 7). lia.
Qed.


Lemma StronglySorted_impl {A} (R R' : A -> A -> Prop) l :
  (forall a b, R a b -> R' a b) -> StronglySorted R l -> StronglySorted R' l.
Proof.
  intros HR. induction 1 as [|a l _ IH Ha]; constructor; [exact IH|].
  eapply Forall_impl; [|exact Ha]. intros b. apply HR.
Qed.

Section MoreSummaryFacts.

Context {pandas : Scraper.Pandas} {sorting : Sorting}.

(** X12. A row without a temperature (NaN) is always "4. INNE", whatever
    the wind; a row without a wind speed is "3. LATO" when its temperature
    is above 15 and "4. INNE" otherwise: it is never one of the two cold
    scenarios. *)
Theorem classify_scenario_of_missing_values (T : Type) (time : T)
    (t w rain pm10 pm2_5 : float) (city : string) :
  classify_scenario (mkRow time nan w rain pm10 pm2_5 city) = "4. INNE" /\
  classify_scenario (mkRow time t nan rain pm10 pm2_5 city) =
    if (15 <? t)%float then "3. LATO" else "4. INNE".
Proof.
  unfold classify_scenario. cbn [temperature_2m_mean wind_speed_10m_max]. split.
  - change (nan <? 5)%float with false. change (15 <? nan)%float with false.
    reflexivity.
  - change (nan <? 10)%float with false. change (20 <? nan)%float with false.
    rewrite !andb_false_r. reflexivity.
Qed.

(** X13. The seasonality table has one line for each month that some row
    has and no other line, each month once, with its English name, in
    ascending order of the month number. *)
Theorem monthly_trend_lists_the_months_in_order (df : Frame) :
  StronglySorted (fun a b => fst (fst a) <= fst (fst b)) (monthly_trend df) /\
  NoDup (map (fun line => fst (fst line)) (monthly_trend df)) /\
  (forall m, In m (map (fun line => fst (fst line)) (monthly_trend df)) <->
             exists r, In r df /\ Month r = m) /\
  (forall line, In line (monthly_trend df) ->
                snd (fst line) = month_name (fst (fst line))).
Proof.
  unfold monthly_trend.
  set (leb := fun a b : Z * string * float => fst (fst a) <=? fst (fst b)).
  set (groups := groupby (pair_eqb Z.eqb String.eqb)
                         (pair_leb Z.eqb Z.leb String.leb)
                         (fun r => (Month r, Month_Name r)) df).
  assert (Hperm : Permutation (sort_values leb (map avg_pm10 groups))
                              (map avg_pm10 groups))
    by apply sort_values_perm.
  assert (Hkeys : map fst (map avg_pm10 groups) = map fst groups)
    by (rewrite map_map; reflexivity).
  assert (Hin : forall k, In k (map fst groups) <->
                          exists r, In r df /\ (Month r, Month_Name r) = k).
  { intros k. unfold groups.
    rewrite (groupby_keys (pair_eqb Z.eqb String.eqb)),
      (in_sorted_keys _ _ pair_eqb_eq), in_map_iff.
    split; intros (r & H1 & H2); exists r; auto. }
  assert (Hnd : NoDup (map fst groups)).
  { unfold groups. rewrite (groupby_keys (pair_eqb Z.eqb String.eqb)).
    apply (NoDup_sorted_keys _ _ pair_eqb_eq). }
  assert (Hname : forall k, In k (map fst groups) -> snd k = month_name (fst k)).
  { intros k Hk. apply Hin in Hk. destruct Hk as (r & _ & <-). reflexivity. }
  assert (Hmonths : map (fun line : Z * string * float => fst (fst line))
                      (map avg_pm10 groups) = map fst (map fst groups)).
  { rewrite !map_map. reflexivity. }
  assert (Pm : Permutation
                 (map (fun line : Z * string * float => fst (fst line))
                    (sort_values leb (map avg_pm10 groups)))
                 (map fst (map fst groups))).
  { rewrite <- Hmonths. now apply Permutation_map. }
  split; [|split; [|split]].
  - assert (H : StronglySorted (fun a b => leb a b = true)
                  (sort_values leb (map avg_pm10 groups))).
    { apply sort_values_sorted; unfold leb.
      - intros a b. rewrite !Z.leb_le. lia.
      - intros a b c. rewrite !Z.leb_le. lia. }
    eapply StronglySorted_impl; [|exact H].
    intros a b. unfold leb. apply Z.leb_le.
  - eapply Permutation_NoDup; [symmetry; exact Pm|].
    apply NoDup_map_NoDup_ForallPairs; [|exact Hnd].
    intros a b Ha Hb E. destruct a as [x u], b as [y v]. cbn in E. subst y.
    apply Hname in Ha, Hb. cbn in Ha, Hb. congruence.
  - intros m. split.
    + intros H. eapply Permutation_in in H; [|exact Pm].
      apply in_map_iff in H. destruct H as (k & <- & Hk).
      apply Hin in Hk. destruct Hk as (r & Hr & <-). eauto.
    + intros (r & Hr & <-). eapply Permutation_in; [symmetry; exact Pm|].
      apply in_map_iff. exists (Month r, Month_Name r). split; [reflexivity|].
      apply Hin. eauto.
  - intros line Hline. eapply Permutation_in in Hline; [|exact Hperm].
    apply Hname. rewrite <- Hkeys. now apply in_map.
Qed.

(** X14. Every line of the weekday table has a day index from 0 to 6 with
    that day's English name; it is marked "Weekend" exactly for the
    indices 5 and 6 (Saturday, Sunday); each index has at most one line, so
    the table has at most seven. *)
Theorem weekend_effect_lines (df : Frame) :
  (forall i day_name_ avg typ,
     In (i, day_name_, avg, typ) (weekend_effect df) ->
     0 <= i <= 6 /\ day_name_ = day_name i /\
     (exists r, In r df /\ Day_of_Week r = i) /\
     typ = if (i =? 5) || (i =? 6) then "Weekend" else "Dzień Roboczy") /\
  NoDup (map (fun line => fst (fst (fst line))) (weekend_effect df)) /\
  (List.length (weekend_effect df) <= 7)%nat.
Proof.
  unfold weekend_effect.
  set (groups := groupby (pair_eqb Z.eqb String.eqb)
                         (pair_leb Z.eqb Z.leb String.leb)
                         (fun r => (Day_of_Week r, Day_Name r)) df).
  assert (Hin : forall k, In k (map fst groups) <->
                          exists r, In r df /\ (Day_of_Week r, Day_Name r) = k).
  { intros k. unfold groups.
    rewrite (groupby_keys (pair_eqb Z.eqb String.eqb)),
      (in_sorted_keys _ _ pair_eqb_eq), in_map_iff.
    split; intros (r & H1 & H2); exists r; auto. }
  assert (Hnd : NoDup (map fst groups)).
  { unfold groups. rewrite (groupby_keys (pair_eqb Z.eqb String.eqb)).
    apply (NoDup_sorted_keys _ _ pair_eqb_eq). }
  assert (Hdays : map (fun line : Z * string * float * string =>
                         fst (fst (fst line)))
                    (map (fun g : Z * string * float =>
                            (g, if fst (fst g) >=? 5 then "Weekend"
                                else "Dzień Roboczy"))
                       (map avg_pm10 groups))
                  = map fst (map fst groups)).
  { rewrite !map_map. reflexivity. }
  assert (Hnd' : NoDup (map fst (map fst groups))).
  { apply NoDup_map_NoDup_ForallPairs; [|exact Hnd].
    intros a b Ha Hb E. destruct a as [x u], b as [y v]. cbn in E. subst y.
    apply Hin in Ha, Hb. destruct Ha as (ra & _ & Ea), Hb as (rb & _ & Eb).
    inversion Ea. inversion Eb. unfold Day_Name, Day_of_Week in *. congruence. }
  split; [|split].
  - intros i name avg typ H.
    apply in_map_iff in H. destruct H as (g & E & Hg).
    apply in_map_iff in Hg. destruct Hg as (grp & Eg & Hgrp).
    assert (Hk : In (fst grp) (map fst groups)) by now apply in_map.
    apply Hin in Hk. destruct Hk as (r & Hr & Ek).
    subst g. unfold avg_pm10 in E. rewrite <- Ek in E. cbn in E.
    inversion E; subst. clear E.
    pose proof (dayofweek_range (time r)) as Hrange.
    unfold Day_of_Week, Day_Name in *.
    repeat split; try lia; [eauto|].
    destruct (Z.geb_spec (dayofweek (time r)) 5);
      destruct (Z.eqb_spec (dayofweek (time r)) 5);
      destruct (Z.eqb_spec (dayofweek (time r)) 6); cbn; try reflexivity; lia.
  - rewrite Hdays. exact Hnd'.
  - rewrite <- (length_map (fun line : Z * string * float * string =>
                              fst (fst (fst line)))), Hdays.
    change 7%nat with (List.length [0; 1; 2; 3; 4; 5; 6]).
    apply NoDup_incl_length; [exact Hnd'|].
    intros i Hi. apply in_map_iff in Hi. destruct Hi as (k & <- & Hk).
    apply Hin in Hk. destruct Hk as (r & _ & <-). cbn.
    pose proof (dayofweek_range (time r)) as Hrange. unfold Day_of_Week. lia.
Qed.

(** X15. When the days above 50 fall in at most ten cities, the ranking
    lists exactly the cities that have such a day, each with its count; a
    city without one is never listed. *)
Theorem city_stats_of_few_cities (df : Frame) (cities : list string) :
  (List.length cities <= 10)%nat ->
  (forall r, In r df -> (50 <? pm10 r)%float = true -> In (city r) cities) ->
  forall c n,
    In (c, n) (city_stats df) <-> (0 < n)%nat /\ n = days_above_50 df c.
Proof.
  intros Hlen Hcities c n. unfold city_stats.
  set (leb := fun a b : string * nat => (snd b <=? snd a)%nat).
  assert (Hperm : Permutation (sort_values leb (smog_days df)) (smog_days df))
    by apply sort_values_perm.
  assert (Hfew : (List.length (smog_days df) <= 10)%nat).
  { rewrite <- (length_map fst). etransitivity; [|exact Hlen].
    apply NoDup_incl_length; [apply NoDup_smog_days|].
    intros c' Hc'. apply in_map_iff in Hc'. destruct Hc' as ([c0 n0] & <- & Hin).
    apply in_smog_days in Hin. destruct Hin as (Hpos & ->). cbn.
    unfold days_above_50 in Hpos.
    destruct (filter (fun r => String.eqb (city r) c0) _) as [|r rs] eqn:E;
      [cbn in Hpos; lia|].
    assert (Hr : In r (r :: rs)) by now left.
    rewrite <- E in Hr. apply filter_In in Hr. destruct Hr as (Hr & Hc).
    apply filter_In in Hr. destruct Hr as (Hr & Hhot).
    apply String.eqb_eq in Hc. subst c0. auto. }
  rewrite firstn_all2 by (rewrite (Permutation_length Hperm); exact Hfew).
  rewrite <- in_smog_days. split; apply Permutation_in; [|symmetry]; exact Hperm.
Qed.

(** X16. The rain table has at most the two lines "Deszcz (Mokro)" and
    "Brak Deszczu (Sucho)"; the first is there exactly when some row has
    more than 0.1 of precipitation, the second exactly when some row has
    not, and a row without a precipitation value (NaN) counts as dry. *)
Theorem rain_effect_lines (df : Frame) :
  NoDup (map fst (rain_effect df)) /\
  (forall l, In l (map fst (rain_effect df)) ->
             l = "Deszcz (Mokro)" \/ l = "Brak Deszczu (Sucho)") /\
  (In "Deszcz (Mokro)" (map fst (rain_effect df)) <->
   exists r, In r df /\ (0.1 <? precipitation_sum r)%float = true) /\
  (In "Brak Deszczu (Sucho)" (map fst (rain_effect df)) <->
   exists r, In r df /\ (0.1 <? precipitation_sum r)%float = false) /\
  (forall (time : Timestamp) t w pm10 pm2_5 city,
     Rain_Condition (mkRow time t w nan pm10 pm2_5 city)
       = "Brak Deszczu (Sucho)").
Proof.
  assert (Hkeys : map fst (rain_effect df) =
                  sorted_keys String.eqb String.leb (map Rain_Condition df)).
  { unfold rain_effect. rewrite map_map. cbn [avg_pm10 fst].
    change (fun x : string * list (Row Timestamp) => fst x)
      with (@fst string (list (Row Timestamp))).
    apply (groupby_keys String.eqb String.leb). }
  assert (Hin : forall l, In l (map fst (rain_effect df)) <->
                          exists r, In r df /\ Rain_Condition r = l).
  { intros l. rewrite Hkeys, (in_sorted_keys _ _ String.eqb_eq), in_map_iff.
    split; intros (r & H1 & H2); exists r; auto. }
  split; [|split; [|split; [|split]]].
  - rewrite Hkeys. apply (NoDup_sorted_keys _ _ String.eqb_eq).
  - intros l Hl. apply Hin in Hl. destruct Hl as (r & _ & <-).
    unfold Rain_Condition. destruct (_ <? _)%float; auto.
  - rewrite Hin. unfold Rain_Condition.
    split; intros (r & Hr & H); exists r; (split; [exact Hr|]).
    + destruct (_ <? _)%float; [reflexivity|discriminate].
    + now rewrite H.
  - rewrite Hin. unfold Rain_Condition.
    split; intros (r & Hr & H); exists r; (split; [exact Hr|]).
    + destruct (_ <? _)%float; [discriminate|reflexivity].
    + now rewrite H.
  - intros. reflexivity.
Qed.


(** A wind speed that is a number beyond the [int64] range gets the
    smallest [int64] as its bin; halves go to the even integer. *)
Example round_astype_int_beyond_int64 :
  round_astype_int 1e19 = inr int64_min /\
  round_astype_int (-1e19) = inr int64_min /\
  round_astype_int 9223372036854775808 = inr int64_min /\
  round_astype_int 2.5 = inr 2 /\
  round_astype_int 3.5 = inr 4 /\
  round_astype_int (-0.5) = inr 0.
Proof. repeat split; vm_compute; reflexivity. Qed.


(** X18. Computed on the filtered frame, the yearly trend has one line for
    each year from 2016 on in which the input has a row, and no other
    line. *)
Theorem yearly_trend_lists_the_years_from_2016 (raw : RawFrame) :
  NoDup (map fst (yearly_trend (from_2016 raw))) /\
  forall y, In y (map fst (yearly_trend (from_2016 raw))) <->
            2016 <= y /\
            exists r t, In r raw /\ time r = Some t /\ year t = y.
Proof.
  assert (Hkeys : map fst (yearly_trend (from_2016 raw)) =
                  sorted_keys Z.eqb Z.leb (map Year (from_2016 raw))).
  { unfold yearly_trend. rewrite map_map. cbn [avg_pm10 fst].
    change (fun x : Z * list (Row Timestamp) => fst x)
      with (@fst Z (list (Row Timestamp))).
    apply (groupby_keys Z.eqb Z.leb). }
  rewrite Hkeys. split; [apply (NoDup_sorted_keys _ _ Z.eqb_eq)|].
  intros y. rewrite (in_sorted_keys _ _ Z.eqb_eq), in_map_iff. split.
  - intros (row & <- & Hrow). apply (proj1 (in_from_2016 _ _)) in Hrow.
    destruct Hrow as (r & Hr & Et & Hy & _). unfold Year.
    split; [exact Hy|]. exists r, (time row). auto.
  - intros (Hy & r & t & Hr & Et & <-).
    exists (with_time t r). split; [reflexivity|].
    apply (proj2 (in_from_2016 _ _)). exists r. cbn. auto.
Qed.

(** X19. A row whose [time] is missing (NaT) is dropped with the rows
    before 2016: the run of the script is the same with and without it. *)
Theorem missing_time_is_dropped (raw1 raw2 : RawFrame)
    (nat_row : Row (option Timestamp)) :
  time nat_row = None ->
  from_2016 (raw1 ++ nat_row :: raw2) = from_2016 (raw1 ++ raw2) /\
  etl_pipeline (Some (raw1 ++ nat_row :: raw2)) = etl_pipeline (Some (raw1 ++ raw2)).
Proof.
  intros H.
  assert (E : from_2016 (raw1 ++ nat_row :: raw2) = from_2016 (raw1 ++ raw2)).
  { rewrite !from_2016_app. f_equal.
    change (nat_row :: raw2) with ([nat_row] ++ raw2). rewrite from_2016_app.
    unfold from_2016 at 1. cbn [flat_map]. rewrite H. reflexivity. }
  split; [exact E|]. unfold etl_pipeline. rewrite E. reflexivity.
Qed.

End MoreSummaryFacts.

Lemma city_stats_of_few_cities_witness :
  In ("Warszawa", 2%nat) (city_stats (sorting := insertion_sorting) winter_frame) <->
  (0 < 2)%nat /\ 2%nat = days_above_50 winter_frame "Warszawa".
Proof.
  apply (city_stats_of_few_cities (sorting := insertion_sorting) winter_frame
           ["Warszawa"; "Kraków"]).
  - cbn. lia.
  - intros r Hr Hhot. cbn in Hr.
    repeat (destruct Hr as [<-|Hr]; [first [cbn; tauto | discriminate Hhot]|]).
    contradiction.
Defined.


(** The wind curve of [gale_frame] begins with the line of the row whose
    wind speed is beyond the [int64] range. *)
Example wind_curve_of_a_gale :
  map fst (wind_curve (pandas := Scraper.iso_pandas)
             [5; 25; 4; 25; 15; int64_min] gale_frame)
    = [int64_min; 4; 5; 15; 25].
Proof. vm_compute. reflexivity. Qed.

Lemma missing_time_is_dropped_witness :
  from_2016 (map raw winter_frame
               ++ with_time None (observed 2020 1 2 1 6 0 40 "Radom") :: [])
    = from_2016 (map raw winter_frame ++ []) /\
  etl_pipeline (pandas := Scraper.iso_pandas) (sorting := insertion_sorting)
    (Some (map raw winter_frame
             ++ with_time None (observed 2020 1 2 1 6 0 40 "Radom") :: []))
  = etl_pipeline (pandas := Scraper.iso_pandas) (sorting := insertion_sorting)
      (Some (map raw winter_frame ++ [])).
Proof.
  apply (missing_time_is_dropped (pandas := Scraper.iso_pandas)
           (sorting := insertion_sorting) (map raw winter_frame) []
           (with_time None (observed 2020 1 2 1 6 0 40 "Radom"))).
  reflexivity.
Defined.

End Pipeline.
